(** * salahkar: the Markdown-to-PDF report builder of [app.py]

    A shallow embedding of [create_report_pdf] and [download_pdf].

    - Python [str] values are sequences of Unicode code points ([list N]);
      literals of the source are written as UTF-8 text and decoded by [u].
    - ReportLab (the layout engine) and the parts of the Python runtime that
      the source only calls are interfaces ([ReportLab], [Python]); every
      theorem holds for all their implementations unless it says otherwise.
    - Exceptions and the calls made to ReportLab are threaded through the
      monad [M]: a computation yields a value or an exception, together with
      the list of ReportLab calls it made. *)

From Stdlib Require Import List NArith ZArith QArith Bool Ascii String Lia.
From Stdlib Require Import Strings.Byte.
Import ListNotations.

Set Default Goal Selector "!".

(* ===================================================================== *)
(** ** Python strings *)
(* ===================================================================== *)

Module Str.

Local Open Scope N_scope.
Local Open Scope list_scope.

Definition char := N.
Definition str := list char.

(** UTF-8 decoding, used only to write the literals of the source. *)
Fixpoint utf8_decode (need : nat) (acc : N) (bs : list N) : str :=
  match bs with
  | [] => []
  | b :: rest =>
      match need with
      | O =>
          if b <? 128 then b :: utf8_decode 0 0 rest
          else if b <? 224 then utf8_decode 1 (b - 192) rest
          else if b <? 240 then utf8_decode 2 (b - 224) rest
          else utf8_decode 3 (b - 240) rest
      | S O => (acc * 64 + (b - 128)) :: utf8_decode 0 0 rest
      | S n => utf8_decode n (acc * 64 + (b - 128)) rest
      end
  end.

Definition u (s : string) : str :=
  utf8_decode 0 0 (map N_of_ascii (list_ascii_of_string s)).

Arguments u s%_string.

Definition eqb (a b : str) : bool :=
  if list_eq_dec N.eq_dec a b then true else false.

(** [c.isspace()] for one code point: the characters [str.strip()] removes. *)
Definition isspace (c : char) : bool :=
  ((9 <=? c) && (c <=? 13)) || ((28 <=? c) && (c <=? 32))
  || (c =? 133) || (c =? 160) || (c =? 5760)
  || ((8192 <=? c) && (c <=? 8202))
  || (c =? 8232) || (c =? 8233) || (c =? 8239) || (c =? 8287)
  || (c =? 12288).

Fixpoint lstrip (s : str) : str :=
  match s with
  | [] => []
  | c :: t => if isspace c then lstrip t else s
  end.

Definition rstrip (s : str) : str := rev (lstrip (rev s)).

(** [s.strip()] *)
Definition strip (s : str) : str := rstrip (lstrip s).

(** [s.startswith(p)] *)
Fixpoint startswith (p s : str) : bool :=
  match p, s with
  | [], _ => true
  | _ :: _, [] => false
  | a :: p', b :: s' => (a =? b) && startswith p' s'
  end.

(** [s.endswith(p)] *)
Definition endswith (p s : str) : bool := startswith (rev p) (rev s).

(** [s.split(sep)] for a one-character separator: the current field is
    accumulated in [cur]. *)
Fixpoint split_acc (sep : char) (cur : str) (s : str) : list str :=
  match s with
  | [] => [rev cur]
  | c :: t =>
      if c =? sep then rev cur :: split_acc sep [] t
      else split_acc sep (c :: cur) t
  end.

Definition split (sep : char) (s : str) : list str := split_acc sep [] s.

(** [l[1:-1]] *)
Definition slice_1_m1 {A} (l : list A) : list A := removelast (tl l).

(** [s.replace(c, new)] for a one-character [c]. *)
Definition replace (c : char) (new : str) (s : str) : str :=
  flat_map (fun x => if x =? c then new else [x]) s.

(** [needle in hay] *)
Fixpoint contains (needle hay : str) : bool :=
  startswith needle hay ||
  match hay with
  | [] => false
  | _ :: t => contains needle t
  end.

(** [sep.join(l)] *)
Fixpoint join (sep : str) (l : list str) : str :=
  match l with
  | [] => []
  | [x] => x
  | x :: t => x ++ sep ++ join sep t
  end.

Definition star : char := 42.
Definition newline : char := 10.

(** *** The two [re.sub] calls

    [re.sub(r'\*\*(.*?)\*\*', r'<b>\1</b>', s)]: at a position that starts
    with two stars, the lazy group takes the shortest run (without a newline,
    which [.] does not match) that is followed by two stars. *)
Fixpoint find_bold_close (s : str) : option str :=
  match s with
  | a :: ((b :: _) as t) =>
      if (a =? star) && (b =? star) then Some []
      else if a =? newline then None
      else option_map (cons a) (find_bold_close t)
  | _ => None
  end.

(** [skip] counts the characters already consumed by the match in progress;
    a position where no match starts is copied and the scan moves on by one
    character. *)
Fixpoint bold_scan (skip : nat) (s : str) : str :=
  match s with
  | [] => []
  | a :: t =>
      match skip with
      | S k => bold_scan k t
      | O =>
          match t with
          | b :: t' =>
              if (a =? star) && (b =? star) then
                match find_bold_close t' with
                | Some c => u "<b>" ++ c ++ u "</b>" ++ bold_scan (List.length c + 3)%nat t
                | None => a :: bold_scan 0 t
                end
              else a :: bold_scan 0 t
          | [] => a :: bold_scan 0 t
          end
      end
  end.

Definition bold_pass (s : str) : str := bold_scan 0 s.

(** [re.sub(r'\*(.*?)\*', r'<i>\1</i>', s)] *)
Fixpoint find_italic_close (s : str) : option str :=
  match s with
  | [] => None
  | a :: t =>
      if a =? star then Some []
      else if a =? newline then None
      else option_map (cons a) (find_italic_close t)
  end.

Fixpoint italic_scan (skip : nat) (s : str) : str :=
  match s with
  | [] => []
  | a :: t =>
      match skip with
      | S k => italic_scan k t
      | O =>
          if a =? star then
            match find_italic_close t with
            | Some c => u "<i>" ++ c ++ u "</i>" ++ italic_scan (List.length c + 1)%nat t
            | None => a :: italic_scan 0 t
            end
          else a :: italic_scan 0 t
      end
  end.

Definition italic_pass (s : str) : str := italic_scan 0 s.

End Str.

Import Str.

Local Open Scope string_scope.
Local Open Scope N_scope.
Local Open Scope list_scope.

(* ===================================================================== *)
(** ** Values, exceptions and the effect monad *)
(* ===================================================================== *)

(** What [request.json] yields; [create_report_pdf] receives such values. *)
#[warnings="-register-all"]
Inductive json :=
| JNull
| JBool (b : bool)
| JInt (z : Z)
| JFloat (q : Q)
| JStr (s : str)
| JList (l : list json)
| JObject (m : list (str * json)).

(** Python truthiness, as tested by [not x]. *)
Definition truthy (v : json) : bool :=
  match v with
  | JNull => false
  | JBool b => b
  | JInt z => negb (z =? 0)%Z
  | JFloat q => negb (Qeq_bool q 0)
  | JStr s => negb (Str.eqb s [])
  | JList l => match l with [] => false | _ => true end
  | JObject m => match m with [] => false | _ => true end
  end.

(** [isinstance(v, str)] *)
Definition is_str (v : json) : bool :=
  match v with JStr _ => true | _ => false end.

Definition type_name (v : json) : str :=
  match v with
  | JNull => u "NoneType"
  | JBool _ => u "bool"
  | JInt _ => u "int"
  | JFloat _ => u "float"
  | JStr _ => u "str"
  | JList _ => u "list"
  | JObject _ => u "dict"
  end.

Inductive exn_class :=
| ValueError | AttributeError | KeyError | ZeroDivisionError | LayoutError.

(** An exception: its class and [str(e)]. *)
Record exn := Exn { exn_class_of : exn_class; exn_str : str }.

Definition no_attribute (v : json) (attr : str) : exn :=
  Exn AttributeError (u "'" ++ type_name v ++ u "' object has no attribute '" ++ attr ++ u "'").

Definition exn_class_eqb (a b : exn_class) : bool :=
  match a, b with
  | ValueError, ValueError | AttributeError, AttributeError | KeyError, KeyError
  | ZeroDivisionError, ZeroDivisionError | LayoutError, LayoutError => true
  | _, _ => false
  end.

(** *** Flowables *)

(** A paragraph style: one made by [ParagraphStyle(name=..., fontName=...)]
    (sizes, colours and spacing are not kept), or an entry of
    [getSampleStyleSheet()]. *)
Inductive pstyle :=
| ParagraphStyle (name : str) (fontName : str)
| SampleStyle (name : str).

(** The arguments of [Paragraph(text, style, bulletText=...)]. *)
Record para := Para { para_markup : str; para_style : pstyle; para_bullet : option str }.

(** Column widths are fractions of [doc.width], spacer heights are in inches. *)
Inductive flowable :=
| FParagraph (p : para)
| Spacer (inches : Q)
| Table (data : list (list para)) (colWidths : list Q).

Inductive template :=
| ReportTemplate   (* SimpleDocTemplate(buffer, pagesize=A4, margins 0.5/0.5/0.75/0.75 inch) *)
| ErrorTemplate.   (* SimpleDocTemplate(buffer, pagesize=A4) *)

(** The calls made to ReportLab that are recorded: creating a document
    template, looking up a font, building a paragraph or a table, and
    [doc.build]. Style objects, colours and spacers are plain values and
    leave no record. *)
Inductive call :=
| CallDocTemplate (t : template)
| CallGetFont (name : str)
| CallParagraph (p : para)
| CallTable (data : list (list para)) (colWidths : list Q)
| CallBuild (t : template) (fs : list flowable).

(** ReportLab, as far as the source depends on it. *)
Class ReportLab := {
  (** [pdfmetrics.getFont(name)]: [None] when the font is found *)
  getFont : str -> option exn;
  (** the exception, if any, that [Paragraph(...)] raises on these arguments *)
  paragraph_error : para -> option exn;
  (** the [.text] attribute of a paragraph *)
  text : para -> str;
  (** the exception, if any, raised by [Table(...)] and [setStyle] *)
  table_error : list (list para) -> list Q -> option exn;
  (** [doc.build(flowables)]: the bytes written to the buffer *)
  build : template -> list flowable -> exn + list byte;
  (** [str(flowable)] *)
  flowable_str : flowable -> str
}.

(** The Python runtime, as far as the source depends on it. *)
Class Python := {
  (** [\d] beyond ASCII: the Unicode decimal digits *)
  unicode_decimal : char -> bool;
  (** [str(v)] of a value that is not a [str], as an f-string formats it *)
  py_str : json -> str;
  (** [traceback.format_exc()] while this exception is handled *)
  format_exc : exn -> str
}.

(** A computation: its result or the exception it raised, and the ReportLab
    calls it made in order. *)
Definition M (A : Type) : Type := (exn + A) * list call.

Definition ret {A} (a : A) : M A := (inr a, []).
Definition raise {A} (e : exn) : M A := (inl e, []).

Definition bind {A B} (m : M A) (f : A -> M B) : M B :=
  match m with
  | (inl e, l) => (inl e, l)
  | (inr a, l) => let (r, l') := f a in (r, l ++ l')
  end.

(** [try: m  except Exception as e: h e] *)
Definition try_except {A} (m : M A) (h : exn -> M A) : M A :=
  match m with
  | (inl e, l) => let (r, l') := h e in (r, l ++ l')
  | (inr a, l) => (inr a, l)
  end.

(** [try: m  except cls: h] *)
Definition try_except_class {A} (cls : exn_class) (m : M A) (h : M A) : M A :=
  match m with
  | (inl e, l) =>
      if exn_class_eqb (exn_class_of e) cls then let (r, l') := h in (r, l ++ l')
      else (inl e, l)
  | (inr a, l) => (inr a, l)
  end.

Definition called {A} (c : call) (r : exn + A) : M A := (r, [c]).

Declare Scope py_scope.
Delimit Scope py_scope with py.
Notation "x <- m ;; k" := (bind m (fun x => k))
  (at level 100, m at next level, right associativity) : py_scope.
Local Open Scope py_scope.

(** A list comprehension whose element expression may raise. *)
Fixpoint mapM {A B} (f : A -> M B) (l : list A) : M (list B) :=
  match l with
  | [] => ret []
  | a :: t => b <- f a ;; bs <- mapM f t ;; ret (b :: bs)
  end.

(** A [for] loop threading the local variables [S]. *)
Fixpoint foldM {A S} (f : S -> A -> M S) (l : list A) (s : S) : M S :=
  match l with
  | [] => ret s
  | a :: t => s' <- f s a ;; foldM f t s'
  end.

(* ===================================================================== *)
(** ** [create_report_pdf] *)
(* ===================================================================== *)

Section Report.

Context {RL : ReportLab} {PY : Python}.

Definition Paragraph (markup : str) (style : pstyle) (bulletText : option str) : M para :=
  let p := Para markup style bulletText in
  called (CallParagraph p)
    match paragraph_error p with Some e => inl e | None => inr p end.

Definition NewTable (data : list (list para)) (colWidths : list Q) : M flowable :=
  called (CallTable data colWidths)
    match table_error data colWidths with
    | Some e => inl e
    | None => inr (Table data colWidths)
    end.

Definition SimpleDocTemplate (t : template) : M template :=
  called (CallDocTemplate t) (inr t).

Definition doc_build (t : template) (fs : list flowable) : M (list byte) :=
  called (CallBuild t fs) (build t fs).

Definition pdfmetrics_getFont (name : str) : M unit :=
  called (CallGetFont name)
    match getFont name with Some e => inl e | None => inr tt end.

(** [f"{v}"] *)
Definition format_value (v : json) : str :=
  match v with JStr s => s | _ => py_str v end.

(** [language == 'hindi'] *)
Definition is_hindi (language : json) : bool :=
  match language with JStr s => Str.eqb s (u "hindi") | _ => false end.

(** The local variables of the parsing loop. *)
Record parse_state := ParseState {
  flowables : list flowable;
  current_table_data : list (list para);
  in_table : bool
}.

(** [styles[name]] for the seven styles added to the sheet. *)
Definition custom_style (base_font_name : str) (name : string) : pstyle :=
  ParagraphStyle (u name) base_font_name.

(** The two substitutions marked "MARKDOWN PARSING FIX", in their order. *)
Definition emphasis (s : str) : str := italic_pass (bold_pass s).

(** [line.startswith('|') and line.endswith('|')] *)
Definition is_table_row (line : str) : bool :=
  startswith (u "|") line && endswith (u "|") line.

(** [c.strip().replace('-', '').replace(':', '').replace(' ', '') == ''] *)
Definition is_rule_cell (c : str) : bool :=
  Str.eqb (replace 32 [] (replace 58 [] (replace 45 [] (strip c)))) [].

(** [[cell.strip() for cell in line.split('|')[1:-1]]] *)
Definition row_cells (line : str) : list str :=
  map strip (slice_1_m1 (split 124 line)).

(** The branch "Handle Tables". *)
Definition table_row (base_font_name : str) (st : parse_state) (line : str) : M parse_state :=
  let data := if in_table st then current_table_data st else [] in
  let cells := row_cells line in
  if negb (forallb is_rule_cell cells) then
    cell_paragraphs <-
      mapM (fun cell =>
              Paragraph (emphasis cell) (ParagraphStyle (u "TableBody") base_font_name) None)
           cells ;;
    ret (ParseState (flowables st) (data ++ [cell_paragraphs]) true)
  else ret (ParseState (flowables st) data true).

(** [[doc.width * 0.35, doc.width * 0.65] if num_cols == 2
     else [doc.width / num_cols] * num_cols] *)
Definition col_widths (num_cols : nat) : M (list Q) :=
  match num_cols with
  | 2%nat => ret [35 # 100; 65 # 100]
  | O => raise (Exn ZeroDivisionError (u "float division by zero"))
  | _ => ret (repeat (1 # Pos.of_nat num_cols) num_cols)
  end.

(** The branch "End of table". *)
Definition end_of_table (base_font_name : str) (st : parse_state) : M parse_state :=
  match current_table_data st with
  | [] => ret (ParseState (flowables st) [] false)
  | header_data :: body =>
      fs <- try_except
              (widths <- col_widths (List.length header_data) ;;
               styled_header <-
                 mapM (fun cell =>
                         Paragraph (u "<b>" ++ text cell ++ u "</b>")
                                   (ParagraphStyle (u "TableHeader") base_font_name) None)
                      header_data ;;
               table <- NewTable (styled_header :: body) widths ;;
               ret (flowables st ++ [table; Spacer (1 # 10)]))
              (fun table_error =>
                 rows <- mapM (fun row =>
                                 Paragraph (join (u " | ") (map text row))
                                           (custom_style base_font_name "CustomBody") None)
                              (current_table_data st) ;;
                 ret (flowables st ++ map FParagraph rows)) ;;
      ret (ParseState fs [] false)
  end.

(** [\d] *)
Definition is_decimal (c : char) : bool :=
  ((48 <=? c) && (c <=? 57)) || ((128 <=? c) && unicode_decimal c).

(** [re.sub(r'^\d+\. ', '', line)] when the pattern matches, [None] when
    [re.match(r'^\d+\. ', line)] fails: [digits] tells whether a digit has
    been read. *)
Fixpoint numbered_rest (digits : bool) (line : str) : option str :=
  match line with
  | c :: t =>
      if is_decimal c then numbered_rest true t
      else
        match t with
        | c' :: rest => if digits && (c =? 46) && (c' =? 32) then Some rest else None
        | [] => None
        end
  | [] => None
  end.

Definition append (st : parse_state) (p : para) : parse_state :=
  ParseState (flowables st ++ [FParagraph p]) (current_table_data st) (in_table st).

(** The body of the loop over [lines]. *)
Definition process_line (base_font_name : str) (st : parse_state) (raw : str) : M parse_state :=
  let line := strip raw in
  if Str.eqb line [] then ret st
  else if is_table_row line then table_row base_font_name st line
  else if in_table st && negb (is_table_row line) then end_of_table base_font_name st
  else if startswith (u "# ") line then
    p <- Paragraph (u "<b>" ++ strip (skipn 2 line) ++ u "</b>") (custom_style base_font_name "CustomH1") None ;;
    ret (append st p)
  else if startswith (u "## ") line then
    p <- Paragraph (u "<b>" ++ strip (skipn 3 line) ++ u "</b>") (custom_style base_font_name "CustomH2") None ;;
    ret (append st p)
  else if startswith (u "### ") line then
    p <- Paragraph (u "<b>" ++ strip (skipn 4 line) ++ u "</b>") (custom_style base_font_name "CustomH3") None ;;
    ret (append st p)
  else if startswith (u "* ") line || startswith (u "- ") line then
    p <- Paragraph (emphasis (strip (skipn 2 line))) (custom_style base_font_name "CustomBullet") (Some (u "•")) ;;
    ret (append st p)
  else
    match numbered_rest false line with
    | Some rest =>
        let number := hd [] (split 46 line) in
        p <- Paragraph (emphasis (strip rest)) (custom_style base_font_name "CustomNumber") (Some (number ++ u ".")) ;;
        ret (append st p)
    | None =>
        if startswith (u "Disclaimer:") line || startswith (u "अस्वीकरण:") line then
          p <- Paragraph (u "<i>" ++ line ++ u "</i>") (custom_style base_font_name "CustomDisclaimer") None ;;
          ret (append st p)
        else
          let processed_line := emphasis line in
          if negb (Str.eqb (strip processed_line) []) then
            p <- Paragraph processed_line (custom_style base_font_name "CustomBody") None ;;
            ret (append st p)
          else ret st
    end.

(** The "PDF Header" paragraphs and the spacer below them. *)
Definition report_header (base_font_name : str) (name location language : json) : M (list flowable) :=
  let H1 := custom_style base_font_name "CustomH1" in
  let H3 := custom_style base_font_name "CustomH3" in
  if is_hindi language then
    a <- Paragraph (u "<b>पेशेवर भूमि उपयोग रिपोर्ट</b>") H1 None ;;
    b <- Paragraph (u "<b>तैयार की गई: " ++ format_value name ++ u "</b>") H3 None ;;
    c <- Paragraph (u "<b>स्थान: " ++ format_value location ++ u "</b>") H3 None ;;
    ret [FParagraph a; FParagraph b; FParagraph c; Spacer (1 # 4)]
  else
    a <- Paragraph (u "<b>Professional Land Use Report</b>") H1 None ;;
    b <- Paragraph (u "<b>Prepared for: " ++ format_value name ++ u "</b>") H3 None ;;
    c <- Paragraph (u "<b>Location: " ++ format_value location ++ u "</b>") H3 None ;;
    ret [FParagraph a; FParagraph b; FParagraph c; Spacer (1 # 4)].

(** The "FONT FIX" block. *)
Definition select_base_font (language : json) : M str :=
  if is_hindi language then
    try_except_class KeyError
      (_ <- pdfmetrics_getFont (u "NotoSansDevanagari") ;; ret (u "NotoSansDevanagari"))
      (ret (u "Helvetica"))
  else ret (u "Helvetica").

(** ['Disclaimer' in str(flowable) or 'अस्वीकरण' in str(flowable)] *)
Definition mentions_disclaimer (f : flowable) : bool :=
  contains (u "Disclaimer") (flowable_str f) || contains (u "अस्वीकरण") (flowable_str f).

Definition default_disclaimer_text (language : json) : str :=
  if is_hindi language then
    u "<i>अस्वीकरण: यह रिपोर्ट केवल सूचनात्मक उद्देश्यों के लिए है। किसी भी निवेश निर्णय लेने से पहले कृपया स्थानीय जोनिंग अधिकारियों, वित्तीय सलाहकारों और कानूनी पेशेवरों से परामर्श करें।</i>"
  else
    u "<i>Disclaimer: This report is for informational purposes only. Please consult with local zoning authorities, financial advisors, and legal professionals before making any investment decisions.</i>".

(** "Add a final disclaimer if not present". *)
Definition add_final_disclaimer (base_font_name : str) (language : json) (fs : list flowable)
  : M (list flowable) :=
  if negb (existsb mentions_disclaimer fs) then
    p <- Paragraph (default_disclaimer_text language)
                   (custom_style base_font_name "CustomDisclaimer") None ;;
    ret (fs ++ [Spacer (2 # 10); FParagraph p])
  else ret fs.

(** The guard at the top of the [try] block:
    [if not markdown_text or not markdown_text.strip(): raise ValueError(...)]. *)
Definition require_markdown (markdown_text : json) : M str :=
  if negb (truthy markdown_text) then
    raise (Exn ValueError (u "No markdown content provided for PDF generation"))
  else
    match markdown_text with
    | JStr s =>
        if Str.eqb (strip s) [] then
          raise (Exn ValueError (u "No markdown content provided for PDF generation"))
        else ret s
    | v => raise (no_attribute v (u "strip"))
    end.

(** "Parse Markdown": the flowables of the report before the final
    disclaimer, and the loop's last state. *)
Definition parse_markdown (base_font_name : str) (header : list flowable) (s : str) : M parse_state :=
  foldM (process_line base_font_name) (split newline s) (ParseState header [] false).

(** The flowables handed to [doc.build]. *)
Definition report_flowables (markdown_text name location language : json) : M (template * list flowable) :=
  s <- require_markdown markdown_text ;;
  doc <- SimpleDocTemplate ReportTemplate ;;
  base_font_name <- select_base_font language ;;
  header <- report_header base_font_name name location language ;;
  st <- parse_markdown base_font_name header s ;;
  fs <- add_final_disclaimer base_font_name language (flowables st) ;;
  ret (doc, fs).

(** The body of the outer [try]. *)
Definition primary_pdf (markdown_text name location language : json) : M (list byte) :=
  df <- report_flowables markdown_text name location language ;;
  doc_build (fst df) (snd df).

(** The texts and styles of the eight paragraphs of [error_flowables]:
    title, explanation, error message, debug context and traceback. *)
Definition error_paragraphs (e : exn) (name location language : json) : list (str * pstyle) :=
  let error_style := ParagraphStyle (u "ErrorNormal") (u "Helvetica") in
  let error_title_style := ParagraphStyle (u "ErrorTitle") (u "Helvetica-Bold") in
  let error_code_style := ParagraphStyle (u "ErrorCode") (u "Courier") in
  [ (u "PDF Generation Failed", error_title_style);
    (u "An error occurred while trying to create your PDF report. This usually means the font files are missing or the markdown from the AI was malformed.", error_style);
    (u "Error Details:", SampleStyle (u "Heading2"));
    (exn_str e, error_style);
    (u "Debug Info:", SampleStyle (u "Heading2"));
    (u "Name: " ++ format_value name ++ u ", Location: " ++ format_value location
       ++ u ", Language: " ++ format_value language, error_style);
    (u "Full Traceback:", SampleStyle (u "Heading3"));
    (replace newline (u "<br/>" ++ [newline]) (format_exc e), error_code_style) ].

(** [error_flowables = [Paragraph(...), ...]] *)
Definition error_flowables (e : exn) (name location language : json) : M (list flowable) :=
  ps <- mapM (fun a => Paragraph (fst a) (snd a) None)
          (error_paragraphs e name location language) ;;
  ret (map FParagraph ps).

(** The body of the inner [try]: "ROBUST ERROR PDF FALLBACK". *)
Definition fallback_pdf (e : exn) (name location language : json) : M (list byte) :=
  doc <- SimpleDocTemplate ErrorTemplate ;;
  fs <- error_flowables e name location language ;;
  doc_build doc fs.

(** [b"CRITICAL ERROR: Could not generate any PDF."] *)
Definition placeholder : list byte :=
  list_byte_of_string "CRITICAL ERROR: Could not generate any PDF.".

(** [create_report_pdf]: the contents of the returned buffer. *)
Definition create_report_pdf (markdown_text name location language : json) : M (list byte) :=
  try_except (primary_pdf markdown_text name location language)
    (fun e =>
       try_except (fallback_pdf e name location language)
         (fun fallback_error => ret placeholder)).

(* ===================================================================== *)
(** ** [download_pdf] *)
(* ===================================================================== *)

Inductive response :=
| JsonError (status : N) (error : str)      (* jsonify({"error": ...}), status *)
| SendFile (body : list byte) (download_name : str).   (* send_file(...), 200 *)

(** A dict is kept as the list of its items, one per key. *)
Fixpoint lookup (key : str) (m : list (str * json)) : option json :=
  match m with
  | [] => None
  | (k, v) :: t => if Str.eqb k key then Some v else lookup key t
  end.

(** [data.get(key, default)] *)
Definition dict_get (data : json) (key : str) (default : json) : M json :=
  match data with
  | JObject m => ret (match lookup key m with Some v => v | None => default end)
  | v => raise (no_attribute v (u "get"))
  end.

(** The endpoint [/api/download_pdf], from the parsed request body. The
    buffer returned by [create_report_pdf] is an object, hence true for
    [if not pdf_buffer]. *)
Definition download_pdf (data : json) : M response :=
  try_except
    (if negb (truthy data) then ret (JsonError 400 (u "No JSON data received"))
     else
       markdown_text <- dict_get data (u "markdown_text") JNull ;;
       name <- dict_get data (u "name") (JStr (u "User")) ;;
       location <- dict_get data (u "location") (JStr (u "Not Specified")) ;;
       language <- dict_get data (u "language") (JStr (u "english")) ;;
       if negb (truthy markdown_text) || negb (is_str markdown_text) then
         ret (JsonError 400 (u "Invalid or missing markdown_text"))
       else
         pdf_content <- create_report_pdf markdown_text name location language ;;
         let filename := if is_hindi language then u "भूमि_रिपोर्ट.pdf" else u "AI_Land_Report.pdf" in
         ret (SendFile pdf_content filename))
    (fun e => ret (JsonError 500 (u "Failed to generate PDF: " ++ exn_str e))).

End Report.

(* ===================================================================== *)
(** ** The spans a markup string stands for *)
(* ===================================================================== *)

(** The markup handed to [Paragraph] carries emphasis as [<b>], [</b>],
    [<i>] and [</i>] tags. [spans_of_markup] reads such a string as the
    sequence of styled runs it denotes. *)
Inductive emphasis_kind := Plain | Bold | Italic.

Definition StyledSpan : Type := emphasis_kind * str.

Definition flush (k : emphasis_kind) (cur : str) (rest : list StyledSpan) : list StyledSpan :=
  match cur with
  | [] => rest
  | _ => (k, rev cur) :: rest
  end.

Fixpoint spans_scan (k : emphasis_kind) (cur : str) (s : str) : list StyledSpan :=
  match s with
  | [] => flush k cur []
  | 60 :: 98 :: 62 :: t => flush k cur (spans_scan Bold [] t)
  | 60 :: 105 :: 62 :: t => flush k cur (spans_scan Italic [] t)
  | 60 :: 47 :: 98 :: 62 :: t => flush k cur (spans_scan Plain [] t)
  | 60 :: 47 :: 105 :: 62 :: t => flush k cur (spans_scan Plain [] t)
  | c :: t => spans_scan k (c :: cur) t
  end.

Definition spans_of_markup (s : str) : list StyledSpan := spans_scan Plain [] s.

(* ===================================================================== *)
(** ** Reference implementations of the two interfaces *)
(* ===================================================================== *)

(** A ReportLab that accepts every paragraph and table, finds every font,
    prints a paragraph with its text and style name, and writes a PDF
    header. *)
Definition style_label (s : pstyle) : str :=
  match s with ParagraphStyle n _ => n | SampleStyle n => n end.

Definition lenient_reportlab : ReportLab := {|
  getFont := fun _ => None;
  paragraph_error := fun _ => None;
  text := para_markup;
  table_error := fun _ _ => None;
  build := fun _ _ => inr (list_byte_of_string "%PDF-1.4");
  flowable_str := fun f =>
    match f with
    | FParagraph p =>
        u "Paragraph('text': '" ++ para_markup p ++ u "', 'style': <ParagraphStyle '"
          ++ style_label (para_style p) ++ u "'>)"
    | Spacer _ => u "Spacer(1, h)"
    | Table _ _ => u "<Table>"
    end
|}.

(** A ReportLab on which every call fails. *)
Definition failing_reportlab : ReportLab := {|
  getFont := fun _ => Some (Exn KeyError (u "font"));
  paragraph_error := fun _ => Some (Exn ValueError (u "xml parser error"));
  text := para_markup;
  table_error := fun _ _ => Some (Exn ValueError (u "table"));
  build := fun _ _ => inl (Exn LayoutError (u "layout"));
  flowable_str := fun _ => []
|}.





(** A runtime that knows the Devanagari digits beyond ASCII. *)
Definition reference_python : Python := {|
  unicode_decimal := fun c => (2406 <=? c) && (c <=? 2415);
  py_str := fun v => u "<" ++ type_name v ++ u ">";
  format_exc := fun e => u "Traceback (most recent call last):" ++ [newline] ++ exn_str e
|}.

Definition scanning (fs : list flowable) : parse_state := ParseState fs [] false.

(* ===================================================================== *)
(** ** Vocabulary of the statements *)
(* ===================================================================== *)

(** A markdown text given by its lines. *)
Definition text_of_lines (l : list string) : str := join [newline] (map u l).

(** The flowable is a [Table]. *)
Definition is_table (f : flowable) : bool :=
  match f with Table _ _ => true | _ => false end.

(** A Disclaimer block: a paragraph in the style [CustomDisclaimer]. *)
Definition is_disclaimer_block (f : flowable) : bool :=
  match f with
  | FParagraph p => Str.eqb (style_label (para_style p)) (u "CustomDisclaimer")
  | _ => false
  end.

(** The base font of a report that is not in Hindi, and the paragraphs the
    loop builds with it for table cells, header cells and body text. *)
Definition helvetica : str := u "Helvetica".

Definition body_cell (markup : string) : para :=
  Para (u markup) (ParagraphStyle (u "TableBody") helvetica) None.

Definition header_cell (markup : string) : para :=
  Para (u markup) (ParagraphStyle (u "TableHeader") helvetica) None.

Definition body_paragraph (markup : string) : flowable :=
  FParagraph (Para (u markup) (custom_style helvetica "CustomBody") None).

(** A table line whose cells are all rule cells, and the number of rows
    the buffer gains from a run of table lines. *)
Definition is_rule_line (raw : str) : bool := forallb is_rule_cell (row_cells (strip raw)).

Definition data_rows (rows : list str) : nat :=
  List.length (filter (fun raw => negb (is_rule_line raw)) rows).

(** The paragraph appended by "Add a final disclaimer if not present". *)
Definition default_disclaimer (base : str) (language : json) : flowable :=
  FParagraph (Para (default_disclaimer_text language)
                   (custom_style base "CustomDisclaimer") None).

(** [data.get(key, default)] on a dict. *)
Definition field (m : list (str * json)) (key : string) (default : json) : json :=
  match lookup (u key) m with Some v => v | None => default end.

(** [download_name] of the file that is sent. *)
Definition filename (language : json) : str :=
  if is_hindi language then u "भूमि_रिपोर्ट.pdf" else u "AI_Land_Report.pdf".


(** The column widths of a table with [num_cols] columns. *)
Definition table_widths (num_cols : nat) : list Q :=
  match num_cols with
  | 2%nat => [35 # 100; 65 # 100]
  | _ => repeat (1 # Pos.of_nat num_cols) num_cols
  end.

(** The paragraphs built for the cells of a table line. *)
Definition cell_paragraphs (base : str) (line : str) : list para :=
  map (fun cell => Para (emphasis cell) (ParagraphStyle (u "TableBody") base) None)
      (row_cells line).

Section Vocabulary.

Context {RL : ReportLab} {PY : Python}.

(** One paragraph is built and appended. *)
Definition emits (st : parse_state) (markup : str) (style : pstyle) (bullet : option str)
  : M parse_state :=
  p <- Paragraph markup style bullet ;; ret (append st p).

(** A line that reaches the final [else] of the loop ("Handle Body Text"). *)
Definition is_body_line (line : str) : bool :=
  negb (Str.eqb line []) && negb (is_table_row line)
  && negb (startswith (u "# ") line) && negb (startswith (u "## ") line)
  && negb (startswith (u "### ") line)
  && negb (startswith (u "* ") line || startswith (u "- ") line)
  && match numbered_rest false line with Some _ => false | None => true end
  && negb (startswith (u "Disclaimer:") line || startswith (u "अस्वीकरण:") line).

(** The rows a run of table lines leaves in the buffer: the cell paragraphs
    of the lines that are not rule lines. *)
Definition table_data (base : str) (rows : list str) : list (list para) :=
  map (fun raw => cell_paragraphs base (strip raw))
      (filter (fun raw => negb (is_rule_line raw)) rows).

(** The header cell made from a buffered cell, and the paragraph a buffered
    row becomes when the table cannot be built. *)
Definition styled_header_cell (base : str) (cell : para) : para :=
  Para (u "<b>" ++ text cell ++ u "</b>") (ParagraphStyle (u "TableHeader") base) None.

Definition row_paragraph (base : str) (row : list para) : para :=
  Para (join (u " | ") (map text row)) (custom_style base "CustomBody") None.




End Vocabulary.

(* ===================================================================== *)
(** ** Vocabulary of the further properties *)
(* ===================================================================== *)

(** [not line], for the stripped line. *)
Definition is_blank (raw : str) : bool := Str.eqb (strip raw) [].

(** What the loop keeps true of its table variables: outside a table the
    buffer is empty, and no buffered row is empty. *)
Definition buffer_ok {RL : ReportLab} {PY : Python} (st : parse_state) : Prop :=
  (in_table st = false -> current_table_data st = [])
  /\ Forall (fun row => row <> []) (current_table_data st).

(** The paragraph, or every cell of the table, is in a style made with the
    font [base]. *)
Definition para_uses (base : str) (p : para) : Prop :=
  exists name, para_style p = ParagraphStyle name base.

Definition flowable_uses (base : str) (f : flowable) : Prop :=
  match f with
  | FParagraph p => para_uses base p
  | Spacer _ => True
  | Table data _ => Forall (Forall (para_uses base)) data
  end.

(** The flowables of the "PDF Header" block. *)
Definition header_flowables {PY : Python} (base : str) (name location language : json)
  : list flowable :=
  let H1 := custom_style base "CustomH1" in
  let H3 := custom_style base "CustomH3" in
  if is_hindi language then
    [ FParagraph (Para (u "<b>पेशेवर भूमि उपयोग रिपोर्ट</b>") H1 None);
      FParagraph (Para (u "<b>तैयार की गई: " ++ format_value name ++ u "</b>") H3 None);
      FParagraph (Para (u "<b>स्थान: " ++ format_value location ++ u "</b>") H3 None);
      Spacer (1 # 4) ]
  else
    [ FParagraph (Para (u "<b>Professional Land Use Report</b>") H1 None);
      FParagraph (Para (u "<b>Prepared for: " ++ format_value name ++ u "</b>") H3 None);
      FParagraph (Para (u "<b>Location: " ++ format_value location ++ u "</b>") H3 None);
      Spacer (1 # 4) ].

Definition fonts_ok {RL : ReportLab} {PY : Python} (base : str) (st : parse_state) : Prop :=
  Forall (flowable_uses base) (flowables st)
  /\ Forall (Forall (para_uses base)) (current_table_data st).

(* ===================================================================== *)
(** ** [generate_report] *)
(* ===================================================================== *)

(** The two configured models. *)
Inductive gemini_model := model_english | model_hindi.

(** What [model.generate_content] returns, as far as the source reads it:
    the texts of the parts of each candidate, and the prompt feedback
    ([None] when it is not truthy, else its [str]). *)
Record candidate := Candidate { parts : list str }.
Record generation := Generation { candidates : list candidate; prompt_feedback : option str }.

(** The generative model: the response, or [str(e)] of the exception raised. *)
Class Gemini := {
  generate_content : gemini_model -> str -> str + generation
}.

(** What the endpoint [/api/generate] answers. *)
Inductive generate_response :=
| ReportText (reportText : str)            (* jsonify({"reportText": ...}), 200 *)
| GenerateError (status : N) (error : str). (* jsonify({"error": ...}), status *)

(** A computation of the endpoint: its result or [str(e)] of the exception
    it raised, and the calls made to the model, each with its prompt. *)
Definition G (A : Type) : Type := (str + A) * list (gemini_model * str).

Definition g_ret {A} (a : A) : G A := (inr a, []).
Definition g_raise {A} (e : str) : G A := (inl e, []).

Definition g_bind {A B} (m : G A) (f : A -> G B) : G B :=
  match m with
  | (inl e, l) => (inl e, l)
  | (inr a, l) => let (r, l') := f a in (r, l ++ l')
  end.

(** [try: m  except Exception as e: h (str(e))] *)
Definition g_try {A} (m : G A) (h : str -> G A) : G A :=
  match m with
  | (inl e, l) => let (r, l') := h e in (r, l ++ l')
  | (inr a, l) => (inr a, l)
  end.

(** The double-quote character. *)
Definition dq : str := [34].

Section Generate.

Context {PY : Python} {GM : Gemini}.

Definition hindi_prompt (m : list (str * json)) : str :=
  List.concat
    [ u "
            यह मेरी भूमि का डेटा है। कृपया एक पूरी रिपोर्ट तैयार करें।

            **भाग 1: भूमि विवरण**
            * **नाम:** ";
      format_value (field m "name" JNull);
      u "
            * **स्थान:** ";
      format_value (field m "location" JNull);
      u "
            * **निर्देशांक:** ";
      format_value (field m "latlong" (JStr (u "प्रदान नहीं किया गया")));
      u "
            * **क्षेत्र प्रकार:** ";
      format_value (field m "areaType" JNull);
      u "
            * **भूमि का आकार:** ";
      format_value (field m "landSize" JNull);
      u "
            * **भूमि का आकृति:** ";
      format_value (field m "landShape" JNull);
      u "
            * **पहुंच:** ";
      format_value (field m "accessibility" JNull);
      u "
            * **दृश्यता:** ";
      format_value (field m "visibility" JNull);
      u "
            * **वर्तमान स्थिति:** ";
      format_value (field m "landStatus" JNull);
      u "
            * **ज्ञात जोनिंग (उपयोगकर्ता इनपुट):** ";
      format_value (field m "zoning" (JStr (u "उपयोगकर्ता को पता नहीं")));
      u "

            **भाग 2: बाजार संदर्भ (उपयोगकर्ता की धारणा - इसे प्राथमिकता दें)**
            * **आसन्न संपत्तियां:** ";
      format_value (field m "neighborhood" (JStr (u "निर्दिष्ट नहीं")));
      u "
            * **स्थानीय जनसांख्यिकी:** ";
      format_value (field m "demographics" (JStr (u "निर्दिष्ट नहीं")));
      u "
            * **पहचानी गई स्थानीय आवश्यकताएं/अंतराल:** ";
      format_value (field m "localNeeds" (JStr (u "निर्दिष्ट नहीं")));
      u "
            * **सफल निकटवर्ती व्यवसाय (प्रतिस्पर्धा):** ";
      format_value (field m "competition" (JStr (u "निर्दिष्ट नहीं")));
      u "

            **भाग 3: उपयोगकर्ता के लक्ष्य और संसाधन**
            * **निवेश बजट:** ";
      format_value (field m "budget" JNull);
      u "
            * **न्यूनतम मासिक आय लक्ष्य:** ";
      format_value (field m "incomeGoal" JNull);
      u "
            * **समय की भागीदारी:** ";
      format_value (field m "time" JNull);
      u "
            * **व्यक्तिगत कौशल/रुचियां:** ";
      format_value (field m "skills" (JStr (u "निर्दिष्ट नहीं")));
      u "

            **निर्देश:**
            1.  रिपोर्ट को हेडर के साथ शुरू करें: ";
      dq;
      u "# पेशेवर भूमि उपयोग और वित्तीय व्यवहार्यता रिपोर्ट";
      dq;
      u "
            2.  ";
      dq;
      u "## 1. कार्यकारी सारांश";
      dq;
      u " बनाएं जिसमें सबसे अच्छी सिफारिश हो।
            3.  ";
      dq;
      u "## 2. शीर्ष 3 सिफारिशें";
      dq;
      u " बनाएं जिसमें प्रत्येक के लिए विस्तृत विवरण हो।
            4.  प्रत्येक सिफारिश के लिए, एक मार्कडाउन तालिका शामिल करें:
                | विवरण | विस्तार |
                |---|---|
                | **व्यापार मॉडल** | (यह विचार क्यों) |
                | **अनुमानित निवेश** | (उपयोगकर्ता के बजट से संबंधित) |
                | **संभावित लाभ/आरओआई** | (उपयोगकर्ता के आय लक्ष्य से संबंधित) |
                | **पेशेवर** | (2-3 पेशेवरों की सूची) |
                | **विपक्ष** | (2-3 विपक्ष/जोखिमों की सूची) |
                | **पहले कदम** | (कार्य योग्य पहले कदम) |
            5.  ";
      dq;
      u "## 3. सामान्य अस्वीकरण";
      dq;
      u " के साथ समाप्त करें जो बताता है कि यह सूचनात्मक है और उन्हें स्थानीय जोनिंग वकीलों और वित्तीय सलाहकारों से परामर्श करना चाहिए।
            " ].

Definition english_prompt (m : list (str * json)) : str :=
  List.concat
    [ u "
            Here is the data for my land. Please generate a full report.

            **Part 1: Land Details**
            * **Name:** ";
      format_value (field m "name" JNull);
      u "
            * **Location:** ";
      format_value (field m "location" JNull);
      u "
            * **Coordinates:** ";
      format_value (field m "latlong" (JStr (u "Not Provided")));
      u "
            * **Area Type:** ";
      format_value (field m "areaType" JNull);
      u "
            * **Land Size:** ";
      format_value (field m "landSize" JNull);
      u "
            * **Land Shape:** ";
      format_value (field m "landShape" JNull);
      u "
            * **Accessibility:** ";
      format_value (field m "accessibility" JNull);
      u "
            * **Visibility:** ";
      format_value (field m "visibility" JNull);
      u "
            * **Current Status:** ";
      format_value (field m "landStatus" JNull);
      u "
            * **Known Zoning (User Input):** ";
      format_value (field m "zoning" (JStr (u "User has no idea")));
      u "

            **Part 2: Market Context (User's Perception - PRIORITIZE THIS)**
            * **Adjacent Properties:** ";
      format_value (field m "neighborhood" (JStr (u "Not specified")));
      u "
            * **Local Demographics:** ";
      format_value (field m "demographics" (JStr (u "Not specified")));
      u "
            * **Identified Local Needs/Gaps:** ";
      format_value (field m "localNeeds" (JStr (u "Not specified")));
      u "
            * **Successful Nearby Businesses (Competition):** ";
      format_value (field m "competition" (JStr (u "Not specified")));
      u "

            **Part 3: User's Goals & Resources**
            * **Investment Budget:** ";
      format_value (field m "budget" JNull);
      u "
            * **Minimum Monthly Income Goal:** ";
      format_value (field m "incomeGoal" JNull);
      u "
            * **Time Involvement:** ";
      format_value (field m "time" JNull);
      u "
            * **Personal Skills/Interests:** ";
      format_value (field m "skills" (JStr (u "Not specified")));
      u "

            **Instructions:**
            1.  Start the report with a header: ";
      dq;
      u "# Professional Land Use & Financial Feasibility Report";
      dq;
      u "
            2.  Create an ";
      dq;
      u "## 1. Executive Summary";
      dq;
      u " with the single best recommendation.
            3.  Create ";
      dq;
      u "## 2. Top 3 Recommendations";
      dq;
      u " with a detailed breakdown for each.
            4.  For each recommendation, include a Markdown table:
                | Detail | Breakdown |
                |---|---|
                | **Business Model** | (Why this idea) |
                | **Estimated Investment** | (Relate to user's budget) |
                | **Potential Profit/ROI** | (Relate to user's income goal) |
                | **Pros** | (List 2-3 pros) |
                | **Cons** | (List 2-3 cons/risks) |
                | **First Steps** | (Actionable first steps) |
            5.  End with ";
      dq;
      u "## 3. General Disclaimer";
      dq;
      u " stating this is informational and they must consult local zoning lawyers and financial advisors.
            " ].

(** [model.generate_content(user_prompt)] *)
Definition model_generate_content (model : gemini_model) (user_prompt : str) : G generation :=
  (generate_content model user_prompt, [(model, user_prompt)]).

(** [response.candidates[0].content.parts[0].text] *)
Definition first_part_text (response : generation) : G str :=
  match candidates response with
  | c :: _ =>
      match parts c with
      | text :: _ => g_ret text
      | [] => g_raise (u "list index out of range")
      end
  | [] => g_raise (u "list index out of range")
  end.

(** The endpoint [/api/generate], from the parsed request body. *)
Definition generate_report (data : json) : G generate_response :=
  g_try
    (if negb (truthy data) then g_ret (GenerateError 400 (u "No JSON data received"))
     else
       match data with
       | JObject m =>
           let language := field m "language" (JStr (u "english")) in
           let model := if is_hindi language then model_hindi else model_english in
           let user_prompt := if is_hindi language then hindi_prompt m else english_prompt m in
           g_bind (model_generate_content model user_prompt) (fun response =>
           match candidates response with
           | _ :: _ =>
               g_bind (first_part_text response) (fun report_text =>
               g_ret (ReportText report_text))
           | [] =>
               let error_message :=
                 u "AI model did not generate a response."
                 ++ match prompt_feedback response with
                    | Some feedback => u " Reason: " ++ feedback
                    | None => []
                    end in
               g_ret (GenerateError 500 error_message)
           end)
       | v => g_raise (exn_str (no_attribute v (u "get")))
       end)
    (fun e => g_ret (GenerateError 500 e)).

End Generate.

(** A model that answers every prompt with one candidate of one part, and
    one that answers with no candidate and a feedback. *)
Definition answering_gemini : Gemini := {|
  generate_content := fun _ _ => inr (Generation [Candidate [u "# Land report"]] None)
|}.

Definition blocked_gemini : Gemini := {|
  generate_content := fun _ _ => inr (Generation [] (Some (u "SAFETY")))
|}.

(** The model and the prompt that go with a request body. *)
Definition model_for (language : json) : gemini_model :=
  if is_hindi language then model_hindi else model_english.

Definition prompt_for {PY : Python} (m : list (str * json)) : str :=
  if is_hindi (field m "language" (JStr (u "english"))) then hindi_prompt m else english_prompt m.

(** Evaluate the string literals of the goal. *)
Ltac eval_literals :=
  repeat match goal with
         | |- context [u ?s] =>
             let v := eval vm_compute in (u s) in change (u s) with v
         end.

(* ===================================================================== *)
(** ** The string operations on small inputs *)
(* ===================================================================== *)

Example strip_both_ends : strip (u "  a b 	") = u "a b".
Proof. vm_compute. reflexivity. Qed.

Example split_on_pipe : split 124 (u "| A | B |") = [[]; u " A "; u " B "; []].
Proof. vm_compute. reflexivity. Qed.

Example row_cells_of_row : row_cells (u "| A | B |") = [u "A"; u "B"].
Proof. vm_compute. reflexivity. Qed.

Example row_cells_of_lone_pipe : row_cells (u "|") = [].
Proof. vm_compute. reflexivity. Qed.

Example rule_row : forallb is_rule_cell (row_cells (u "|:---|---:|")) = true.
Proof. vm_compute. reflexivity. Qed.

Example bold_of_empty_run : bold_pass (u "****") = u "<b></b>".
Proof. vm_compute. reflexivity. Qed.

Example bold_is_lazy : bold_pass (u "**a** and **b**") = u "<b>a</b> and <b>b</b>".
Proof. vm_compute. reflexivity. Qed.

Example lone_star_stays : emphasis (u "2 * 3") = u "2 * 3".
Proof. vm_compute. reflexivity. Qed.

Example lone_double_star_is_an_empty_italic : emphasis (u "a ** b * c") = u "a <i></i> b * c".
Proof. vm_compute. reflexivity. Qed.

(* ===================================================================== *)
(** ** Laws of the effect monad *)
(* ===================================================================== *)

Lemma bind_ret_l {A B} (a : A) (f : A -> M B) : bind (ret a) f = f a.
Proof. unfold bind, ret. destruct (f a) as [r l]. reflexivity. Qed.

Lemma bind_raise {A B} (e : exn) (f : A -> M B) : bind (raise e) f = raise e.
Proof. reflexivity. Qed.

Lemma bind_assoc {A B C} (m : M A) (f : A -> M B) (g : B -> M C) :
  bind (bind m f) g = bind m (fun a => bind (f a) g).
Proof.
  destruct m as [[e | a] l]; simpl; [reflexivity |].
  destruct (f a) as [[e | b] l1]; simpl; [reflexivity |].
  destruct (g b) as [r l2]. rewrite app_assoc. reflexivity.
Qed.

Lemma bind_inr {A B} (m : M A) (f : A -> M B) (b : B) (l : list call) :
  bind m f = (inr b, l) ->
  exists a l1 l2, m = (inr a, l1) /\ f a = (inr b, l2) /\ l = l1 ++ l2.
Proof.
  destruct m as [[e | a] l1]; simpl; [discriminate |].
  destruct (f a) as [r l2] eqn:F. intros E. inversion E; subst.
  exists a, l1, l2. auto.
Qed.

Lemma bind_inl {A B} (m : M A) (f : A -> M B) (e : exn) (l : list call) :
  bind m f = (inl e, l) ->
  m = (inl e, l)
  \/ exists a l1 l2, m = (inr a, l1) /\ f a = (inl e, l2) /\ l = l1 ++ l2.
Proof.
  destruct m as [[e' | a] l1]; simpl.
  - intros E. inversion E; subst. left. reflexivity.
  - destruct (f a) as [r l2] eqn:F. intros E. inversion E; subst.
    right. exists a, l1, l2. auto.
Qed.

Lemma bind_ext {A B} (m : M A) (f g : A -> M B) :
  (forall a, f a = g a) -> bind m f = bind m g.
Proof.
  intros E. destruct m as [[e | a] l]; simpl; [reflexivity |]. rewrite E. reflexivity.
Qed.

Lemma foldM_app {A S} (f : S -> A -> M S) (l1 l2 : list A) (s : S) :
  foldM f (l1 ++ l2) s = bind (foldM f l1 s) (foldM f l2).
Proof.
  revert s. induction l1 as [| a l1 IH]; intros s; cbn [app foldM].
  - symmetry. apply bind_ret_l.
  - rewrite bind_assoc. apply bind_ext. intros s'. apply IH.
Qed.

Lemma mapM_length {A B} (f : A -> M B) (l : list A) (bs : list B) (log : list call) :
  mapM f l = (inr bs, log) -> List.length bs = List.length l.
Proof.
  revert bs log. induction l as [| a l IH]; intros bs log; cbn [mapM].
  - intros E. inversion E. reflexivity.
  - intros E. apply bind_inr in E. destruct E as (b & l1 & l2 & _ & E & _).
    apply bind_inr in E. destruct E as (bs' & l3 & l4 & E1 & E2 & _).
    inversion E2; subst. simpl. f_equal. eapply IH. eassumption.
Qed.

Lemma bind_fst_inl {A B} (m : M A) (f : A -> M B) (e : exn) :
  fst m = inl e -> fst (bind m f) = inl e.
Proof. destruct m as [[e' | a] l]; cbn; intros E; [congruence | discriminate E]. Qed.

(* ===================================================================== *)
(** ** Comprehensions that build paragraphs *)
(* ===================================================================== *)

Section Comprehensions.

Context {RL : ReportLab}.

(** When ReportLab accepts every paragraph, the comprehension gives the
    paragraphs in order and makes one call for each. *)
Lemma mapM_paragraph_accept {A} (markup : A -> str) (style : A -> pstyle) (l : list A) :
  Forall (fun a => paragraph_error (Para (markup a) (style a) None) = None) l ->
  mapM (fun a => Paragraph (markup a) (style a) None) l
  = (inr (map (fun a => Para (markup a) (style a) None) l),
     map (fun a => CallParagraph (Para (markup a) (style a) None)) l).
Proof.
  induction 1 as [| a l Ha F IH]; [reflexivity |].
  cbn [mapM map]. unfold Paragraph at 1, called, bind at 1. rewrite Ha, IH.
  cbn. rewrite app_nil_r. reflexivity.
Qed.


(** A comprehension that raised nothing was accepted throughout. *)
Lemma mapM_paragraph_inr {A} (markup : A -> str) (style : A -> pstyle)
    (l : list A) (ps : list para) (log : list call) :
  mapM (fun a => Paragraph (markup a) (style a) None) l = (inr ps, log) ->
  ps = map (fun a => Para (markup a) (style a) None) l
  /\ log = map CallParagraph ps
  /\ Forall (fun p => paragraph_error p = None) ps.
Proof.
  revert ps log. induction l as [| a l IH]; intros ps log; cbn [mapM map].
  - intros E. inversion E. repeat split. constructor.
  - intros E. apply bind_inr in E. destruct E as (p & l1 & l2 & P & E & L).
    apply bind_inr in E. destruct E as (ps' & l3 & l4 & Ps & E & L').
    inversion E; subst ps l4. unfold Paragraph, called in P.
    destruct (paragraph_error _) eqn:PE; inversion P; subst p l1.
    destruct (IH ps' l3 Ps) as (E1 & E2 & E3). subst log l2.
    rewrite app_nil_r. cbn [map app]. rewrite <- E1, <- E2.
    repeat split. constructor; assumption.
Qed.


End Comprehensions.

(* ===================================================================== *)
(** ** Inline emphasis *)
(* ===================================================================== *)

(** Text without a star is left as it is by both passes. *)
Lemma bold_scan_no_star (s : str) : ~ In star s -> bold_scan 0 s = s.
Proof.
  induction s as [| a t IH]; intros H; [reflexivity |].
  cbn [bold_scan]. assert (Ha : (a =? star) = false).
  { apply N.eqb_neq. intros E. apply H. left. subst a. reflexivity. }
  rewrite Ha. cbn [andb].
  rewrite IH by (intros I; apply H; right; exact I).
  destruct t; reflexivity.
Qed.

Lemma italic_scan_no_star (s : str) : ~ In star s -> italic_scan 0 s = s.
Proof.
  induction s as [| a t IH]; intros H; [reflexivity |].
  cbn [italic_scan]. assert (Ha : (a =? star) = false).
  { apply N.eqb_neq. intros E. apply H. left. subst a. reflexivity. }
  rewrite Ha. rewrite IH by (intros I; apply H; right; exact I). reflexivity.
Qed.

(** X17: a text without a star is left as it is by the two substitutions. *)
Lemma emphasis_no_star (s : str) : ~ In star s -> emphasis s = s.
Proof.
  intros H. unfold emphasis, italic_pass, bold_pass.
  rewrite bold_scan_no_star by exact H. apply italic_scan_no_star. exact H.
Qed.

Lemma bold_scan_skip (pre rest : str) :
  bold_scan (List.length pre) (pre ++ rest) = bold_scan 0 rest.
Proof. induction pre as [| a pre IH]; [reflexivity | exact IH]. Qed.

Lemma italic_scan_skip (pre rest : str) :
  italic_scan (List.length pre) (pre ++ rest) = italic_scan 0 rest.
Proof. induction pre as [| a pre IH]; [reflexivity | exact IH]. Qed.

Lemma not_in_cons_neq (a c : char) (t : str) : ~ In c (a :: t) -> (a =? c) = false /\ ~ In c t.
Proof.
  intros H. split.
  - apply N.eqb_neq. intros E. apply H. left. exact E.
  - intros I. apply H. right. exact I.
Qed.

Lemma find_bold_close_plain (c rest : str) :
  ~ In star c -> ~ In newline c ->
  find_bold_close (c ++ star :: star :: rest) = Some c.
Proof.
  induction c as [| a c IH]; intros S L.
  - reflexivity.
  - apply not_in_cons_neq in S, L. destruct S as [Sa S], L as [La L].
    specialize (IH S L). cbn [app find_bold_close].
    destruct (c ++ star :: star :: rest) as [| b t] eqn:T.
    + destruct c; discriminate T.
    + rewrite Sa, La. cbn [andb]. rewrite IH. reflexivity.
Qed.

Lemma find_italic_close_plain (c rest : str) :
  ~ In star c -> ~ In newline c ->
  find_italic_close (c ++ star :: rest) = Some c.
Proof.
  induction c as [| a c IH]; intros S L.
  - reflexivity.
  - apply not_in_cons_neq in S, L. destruct S as [Sa S], L as [La L].
    cbn [app find_italic_close]. rewrite Sa, La, (IH S L). reflexivity.
Qed.

(** Text before the first star is copied. *)
Lemma bold_scan_plain_prefix (pre rest : str) :
  ~ In star pre -> bold_scan 0 (pre ++ rest) = pre ++ bold_scan 0 rest.
Proof.
  induction pre as [| a pre IH]; intros S; [reflexivity |].
  apply not_in_cons_neq in S. destruct S as [Sa S].
  cbn [app bold_scan]. rewrite Sa, (IH S). cbn [andb].
  destruct (pre ++ rest); reflexivity.
Qed.

Lemma italic_scan_plain_prefix (pre rest : str) :
  ~ In star pre -> italic_scan 0 (pre ++ rest) = pre ++ italic_scan 0 rest.
Proof.
  induction pre as [| a pre IH]; intros S; [reflexivity |].
  apply not_in_cons_neq in S. destruct S as [Sa S].
  cbn [app italic_scan]. rewrite Sa, (IH S). reflexivity.
Qed.

Lemma bold_scan_at_stars (t : str) :
  bold_scan 0 (star :: star :: t)
  = match find_bold_close t with
    | Some c => u "<b>" ++ c ++ u "</b>" ++ bold_scan (List.length c + 3) (star :: t)
    | None => star :: bold_scan 0 (star :: t)
    end.
Proof. reflexivity. Qed.

Lemma italic_scan_at_star (t : str) :
  italic_scan 0 (star :: t)
  = match find_italic_close t with
    | Some c => u "<i>" ++ c ++ u "</i>" ++ italic_scan (List.length c + 1) t
    | None => star :: italic_scan 0 t
    end.
Proof. reflexivity. Qed.

(** A run between double stars becomes a bold element. *)
Lemma bold_scan_run (c rest : str) :
  ~ In star c -> ~ In newline c ->
  bold_scan 0 (star :: star :: c ++ star :: star :: rest)
  = u "<b>" ++ c ++ u "</b>" ++ bold_scan 0 rest.
Proof.
  intros S L. rewrite bold_scan_at_stars.
  rewrite (find_bold_close_plain c rest S L).
  assert (K : bold_scan (List.length c + 3) (star :: c ++ star :: star :: rest)
              = bold_scan 0 rest).
  { replace (star :: c ++ star :: star :: rest) with ((star :: c ++ [star; star]) ++ rest)
      by (cbn [app]; rewrite <- app_assoc; reflexivity).
    replace (List.length c + 3)%nat with (List.length (star :: c ++ [star; star]))
      by (cbn [List.length]; rewrite length_app; cbn [List.length]; lia).
    apply bold_scan_skip. }
  rewrite K. reflexivity.
Qed.

Lemma italic_scan_run (c rest : str) :
  ~ In star c -> ~ In newline c ->
  italic_scan 0 (star :: c ++ star :: rest)
  = u "<i>" ++ c ++ u "</i>" ++ italic_scan 0 rest.
Proof.
  intros S L. rewrite italic_scan_at_star.
  rewrite (find_italic_close_plain c rest S L).
  assert (K : italic_scan (List.length c + 1) (c ++ star :: rest) = italic_scan 0 rest).
  { replace (c ++ star :: rest) with ((c ++ [star]) ++ rest)
      by (rewrite <- app_assoc; reflexivity).
    replace (List.length c + 1)%nat with (List.length (c ++ [star]))
      by (rewrite length_app; cbn [List.length]; lia).
    apply italic_scan_skip. }
  rewrite K. reflexivity.
Qed.

Lemma find_bold_close_none (s : str) : ~ In star s -> find_bold_close s = None.
Proof.
  induction s as [| a t IH]; intros S; [reflexivity |].
  apply not_in_cons_neq in S. destruct S as [Sa S].
  cbn [find_bold_close]. destruct t as [| b t']; [reflexivity |].
  rewrite Sa. cbn [andb]. destruct (a =? newline); [reflexivity |].
  rewrite (IH S). reflexivity.
Qed.

Lemma bold_scan_other (a : char) (t : str) :
  (a =? star) = false -> bold_scan 0 (a :: t) = a :: bold_scan 0 t.
Proof. intros A. cbn [bold_scan]. rewrite A. destruct t; reflexivity. Qed.

Lemma bold_scan_star_other (b : char) (t : str) :
  (b =? star) = false -> bold_scan 0 (star :: b :: t) = star :: bold_scan 0 (b :: t).
Proof.
  intros B. change (bold_scan 0 (star :: b :: t))
    with (if (star =? star) && (b =? star)
          then match find_bold_close t with
               | Some c => u "<b>" ++ c ++ u "</b>" ++ bold_scan (List.length c + 3) (b :: t)
               | None => star :: bold_scan 0 (b :: t)
               end
          else star :: bold_scan 0 (b :: t)).
  rewrite B, andb_false_r. reflexivity.
Qed.

(** A single-star run is left alone by the bold pass. *)
Lemma bold_scan_single_stars (i post : str) :
  ~ In star i -> ~ In star post ->
  bold_scan 0 (star :: i ++ star :: post) = star :: i ++ star :: post.
Proof.
  intros Si Sp.
  assert (P : bold_scan 0 (star :: post) = star :: post).
  { destruct post as [| b t]; [reflexivity |].
    pose proof (bold_scan_no_star (b :: t) Sp) as Q.
    apply not_in_cons_neq in Sp. destruct Sp as [Sb _].
    rewrite (bold_scan_star_other b t Sb), Q. reflexivity. }
  destruct i as [| a i].
  - cbn [app]. rewrite bold_scan_at_stars, (find_bold_close_none post Sp), P. reflexivity.
  - pose proof (bold_scan_plain_prefix (a :: i) (star :: post) Si) as Q.
    apply not_in_cons_neq in Si. destruct Si as [Sa _].
    cbn [app] in *. rewrite (bold_scan_star_other a _ Sa), Q, P. reflexivity.
Qed.

(** X18: the two substitutions on a line with one bold run followed by one
    italic run, none of them with a star or a line break inside: the runs
    are put between their tags and the rest of the line is kept. *)
Lemma emphasis_bold_and_italic_runs (pre b mid i post : str) :
  ~ In star pre -> ~ In star b -> ~ In newline b -> ~ In star mid ->
  ~ In star i -> ~ In newline i -> ~ In star post ->
  emphasis (pre ++ u "**" ++ b ++ u "**" ++ mid ++ u "*" ++ i ++ u "*" ++ post)
  = pre ++ u "<b>" ++ b ++ u "</b>" ++ mid ++ u "<i>" ++ i ++ u "</i>" ++ post.
Proof.
  intros Spre Sb Lb Smid Si Li Spost. unfold emphasis, bold_pass, italic_pass.
  change (u "**") with [star; star]. change (u "*") with [star]. cbn [app].
  rewrite (bold_scan_plain_prefix pre _ Spre), (bold_scan_run b _ Sb Lb).
  rewrite (bold_scan_plain_prefix mid _ Smid), (bold_scan_single_stars i post Si Spost).
  assert (Sall : ~ In star (pre ++ u "<b>" ++ b ++ u "</b>" ++ mid)).
  { rewrite !in_app_iff. intros [H | [H | [H | [H | H]]]]; try contradiction;
      vm_compute in H; intuition discriminate. }
  replace (pre ++ u "<b>" ++ b ++ u "</b>" ++ mid ++ star :: i ++ star :: post)
    with ((pre ++ u "<b>" ++ b ++ u "</b>" ++ mid) ++ star :: i ++ star :: post)
    by (rewrite <- !app_assoc; reflexivity).
  rewrite (italic_scan_plain_prefix _ _ Sall), (italic_scan_run i post Si Li).
  rewrite (italic_scan_no_star post Spost). rewrite <- !app_assoc. reflexivity.
Qed.

(** C8: emphasis is the bold substitution followed by the italic one; on
    ["**bold** and *italic*"] the body-text branch hands ReportLab the markup
    [<b>bold</b> and <i>italic</i>], which reads as the spans Bold "bold",
    Plain " and ", Italic "italic". Running the italic substitution first
    would split the bold markers. *)
Theorem emphasis_bold_before_italic :
  (forall s, emphasis s = italic_pass (bold_pass s))
  /\ emphasis (u "**bold** and *italic*") = u "<b>bold</b> and <i>italic</i>"
  /\ spans_of_markup (emphasis (u "**bold** and *italic*"))
     = [(Bold, u "bold"); (Plain, u " and "); (Italic, u "italic")]
  /\ (forall (RL : ReportLab) (PY : Python) base fs,
        snd (process_line base (scanning fs) (u "**bold** and *italic*"))
        = [CallParagraph (Para (u "<b>bold</b> and <i>italic</i>")
                               (custom_style base "CustomBody") None)])
  /\ bold_pass (italic_pass (u "**bold** and *italic*"))
     = u "<i></i>bold<i></i> and <i>italic</i>".
Proof.
  split; [reflexivity |].
  split; [vm_compute; reflexivity |].
  split; [vm_compute; reflexivity |].
  split; [| vm_compute; reflexivity].
  intros [gf pe tx te bd fstr] PY base fs. vm_compute.
  destruct (pe _); reflexivity.
Qed.

(* ===================================================================== *)
(** ** The table branches of the loop *)
(* ===================================================================== *)

Lemma str_eqb_eq (a b : str) : Str.eqb a b = true <-> a = b.
Proof.
  unfold Str.eqb. destruct (list_eq_dec N.eq_dec a b); split; intros; congruence.
Qed.

Lemma eqb_nil_false (s : str) : s <> [] -> Str.eqb s [] = false.
Proof.
  intros H. destruct (Str.eqb s []) eqn:E; [| reflexivity].
  apply str_eqb_eq in E. contradiction.
Qed.

Lemma table_row_not_blank (line : str) : is_table_row line = true -> line <> [].
Proof. intros H E. subst line. discriminate H. Qed.

Section TableBranches.

Context {RL : ReportLab} {PY : Python}.
Variable base : str.

Lemma process_line_blank st raw :
  strip raw = [] -> process_line base st raw = ret st.
Proof. intros E. unfold process_line. rewrite E. reflexivity. Qed.

Lemma process_line_table_row st raw :
  is_table_row (strip raw) = true ->
  process_line base st raw = table_row base st (strip raw).
Proof.
  intros T. unfold process_line.
  rewrite (eqb_nil_false _ (table_row_not_blank _ T)), T. reflexivity.
Qed.

(** In the table state a line that is not a table row only closes the table:
    what the loop does next does not depend on the line. *)
Lemma process_line_closes_table st raw :
  in_table st = true -> strip raw <> [] -> is_table_row (strip raw) = false ->
  process_line base st raw = end_of_table base st.
Proof.
  intros I N T. unfold process_line.
  rewrite (eqb_nil_false _ N), T, I. reflexivity.
Qed.

(** A row of rule cells adds nothing and leaves the table open. *)
Lemma table_row_rule st line :
  forallb is_rule_cell (row_cells line) = true ->
  table_row base st line
  = ret (ParseState (flowables st)
                    (if in_table st then current_table_data st else []) true).
Proof. intros R. unfold table_row. rewrite R. reflexivity. Qed.



(** What closing the table leaves behind when nothing is raised: the state
    is back to scanning with an empty buffer; a non-empty buffer has become a
    table with as many rows, or, when building the table failed, as many
    paragraphs. *)
Lemma end_of_table_result st st' log :
  end_of_table base st = (inr st', log) ->
  in_table st' = false /\ current_table_data st' = []
  /\ (current_table_data st = [] -> flowables st' = flowables st)
  /\ (current_table_data st <> [] ->
      (exists data widths,
          flowables st' = flowables st ++ [Table data widths; Spacer (1 # 10)]
          /\ List.length data = List.length (current_table_data st))
      \/ (exists ps,
          flowables st' = flowables st ++ map FParagraph ps
          /\ List.length ps = List.length (current_table_data st))).
Proof.
  unfold end_of_table. destruct (current_table_data st) as [| header body] eqn:D.
  - intros E. inversion E; subst. cbn. repeat split. intros C. contradiction.
  - intros E. apply bind_inr in E. destruct E as (fs & l1 & l2 & E1 & E2 & _).
    inversion E2; subst st'. cbn. repeat split; [intros C; discriminate C |].
    intros _. unfold try_except in E1.
    match type of E1 with (match ?m with _ => _ end) = _ => destruct m as [[e | fs'] l] eqn:Try end.
    + right.
      match type of E1 with (let (_, _) := ?m in _) = _ => destruct m as [r l'] eqn:H end.
      inversion E1; subst r.
      apply bind_inr in H. destruct H as (ps & l3 & l4 & P & Q & _).
      inversion Q; subst fs. exists ps. split; [reflexivity |].
      apply mapM_length in P. exact P.
    + left. inversion E1; subst fs'.
      apply bind_inr in Try. destruct Try as (w & l3 & l4 & _ & Try & _).
      apply bind_inr in Try. destruct Try as (hd & l5 & l6 & _ & Try & _).
      apply bind_inr in Try. destruct Try as (tb & l7 & l8 & Tb & Try & _).
      inversion Try; subst fs. unfold NewTable, called in Tb.
      destruct (table_error (hd :: body) w); inversion Tb; subst tb.
      exists (hd :: body), w. split; reflexivity.
Qed.

End TableBranches.

Lemma filter_split_length {A} (f : A -> bool) (l : list A) :
  (List.length (filter (fun x => negb (f x)) l) + List.length (filter f l))%nat
  = List.length l.
Proof.
  induction l as [| a l IH]; [reflexivity |]. cbn [filter].
  destruct (f a); cbn [negb List.length]; lia.
Qed.

Section TableEngine.

Context {RL : ReportLab} {PY : Python}.
Variable base : str.

(** A data row whose cell paragraphs ReportLab accepts: the buffer gets the
    row of those paragraphs, one call for each. *)
Lemma table_row_accepted st line :
  forallb is_rule_cell (row_cells line) = false ->
  Forall (fun p => paragraph_error p = None) (cell_paragraphs base line) ->
  table_row base st line
  = (inr (ParseState (flowables st)
            ((if in_table st then current_table_data st else [])
             ++ [cell_paragraphs base line]) true),
     map CallParagraph (cell_paragraphs base line)).
Proof.
  intros R F. unfold table_row, cell_paragraphs in *. rewrite R. cbn [negb].
  rewrite Forall_map in F.
  rewrite (mapM_paragraph_accept emphasis (fun _ => ParagraphStyle (u "TableBody") base)
             (row_cells line) F).
  cbn. rewrite app_nil_r, map_map. reflexivity.
Qed.

(** A run of table lines whose cells are accepted fills the buffer with
    [table_data]. *)
Lemma table_run_accepted rows st :
  Forall (fun raw => is_table_row (strip raw) = true) rows -> rows <> [] ->
  Forall (Forall (fun p => paragraph_error p = None)) (table_data base rows) ->
  foldM (process_line base) rows st
  = (inr (ParseState (flowables st)
            ((if in_table st then current_table_data st else []) ++ table_data base rows)
            true),
     List.concat (map (map CallParagraph) (table_data base rows))).
Proof.
  intros T. revert st. induction T as [| raw rows Tr T IH]; intros st N F; [contradiction |].
  cbn [foldM]. rewrite (process_line_table_row base st raw Tr).
  assert (Step : exists l1,
             table_row base st (strip raw)
             = (inr (ParseState (flowables st)
                       ((if in_table st then current_table_data st else [])
                        ++ table_data base [raw]) true), l1)
             /\ l1 = List.concat (map (map CallParagraph) (table_data base [raw]))).
  { unfold table_data in *. cbn [filter] in *. unfold is_rule_line in *.
    destruct (forallb is_rule_cell (row_cells (strip raw))) eqn:R; cbn [negb map] in *.
    - rewrite (table_row_rule base st (strip raw) R). exists []. rewrite app_nil_r.
      split; reflexivity.
    - inversion F as [| ? ? Fa Fb]; subst.
      rewrite (table_row_accepted st (strip raw) R Fa). eexists. split; [reflexivity |].
      cbn. rewrite app_nil_r. reflexivity. }
  destruct Step as (l1 & Step & L1). rewrite Step.
  assert (Split : table_data base (raw :: rows) = table_data base [raw] ++ table_data base rows).
  { unfold table_data. cbn [filter]. destruct (negb (is_rule_line raw)); reflexivity. }
  rewrite Split in F |- *. apply Forall_app in F. destruct F as [_ F].
  destruct rows as [| raw2 rows2].
  - cbn [foldM]. unfold bind, ret. subst l1.
    change (table_data base []) with (@nil (list para)). rewrite !app_nil_r. reflexivity.
  - unfold bind at 1. rewrite (IH _ ltac:(discriminate) F). cbn [flowables in_table current_table_data].
    rewrite map_app, concat_app, app_assoc. subst l1. reflexivity.
Qed.

Lemma col_widths_ok (n : nat) : n <> 0%nat -> col_widths n = ret (table_widths n).
Proof. destruct n as [| [| [| n]]]; [contradiction | | |]; reflexivity. Qed.

(** Closing a table that ReportLab accepts. *)
Lemma end_of_table_accepted st header_data body :
  current_table_data st = header_data :: body -> header_data <> [] ->
  Forall (fun cell => paragraph_error (styled_header_cell base cell) = None) header_data ->
  table_error (map (styled_header_cell base) header_data :: body)
              (table_widths (List.length header_data)) = None ->
  end_of_table base st
  = (inr (ParseState
            (flowables st
             ++ [Table (map (styled_header_cell base) header_data :: body)
                       (table_widths (List.length header_data));
                 Spacer (1 # 10)]) [] false),
     map CallParagraph (map (styled_header_cell base) header_data)
     ++ [CallTable (map (styled_header_cell base) header_data :: body)
                   (table_widths (List.length header_data))]).
Proof.
  intros D N A T. unfold end_of_table. rewrite D.
  rewrite (col_widths_ok _ (fun Z => N (proj1 (length_zero_iff_nil header_data) Z))).
  rewrite bind_ret_l.
  rewrite (mapM_paragraph_accept (fun cell => u "<b>" ++ text cell ++ u "</b>")
             (fun _ => ParagraphStyle (u "TableHeader") base) header_data A).
  fold (styled_header_cell base).
  unfold NewTable, called, bind, try_except. rewrite T. cbn.
  rewrite !app_nil_r, map_map. reflexivity.
Qed.

(** A row that is not a rule row has a cell. *)
Lemma data_row_has_cells line :
  forallb is_rule_cell (row_cells line) = false -> cell_paragraphs base line <> [].
Proof.
  unfold cell_paragraphs. destruct (row_cells line); [discriminate | discriminate].
Qed.

Lemma table_data_rows_have_cells rows :
  Forall (fun row => row <> []) (table_data base rows).
Proof.
  unfold table_data. induction rows as [| raw rows IH]; [constructor |].
  cbn [filter]. destruct (is_rule_line raw) eqn:R; cbn [negb map]; [exact IH |].
  constructor; [apply data_row_has_cells; exact R | exact IH].
Qed.

Lemma table_data_length rows :
  List.length (table_data base rows) = data_rows rows.
Proof. unfold table_data, data_rows. apply length_map. Qed.

(** Table lines followed by a line that is not a table line, on a ReportLab
    that accepts the cells, the header and the table. *)
Lemma closed_table_is_built fs rows after header_data body :
  Forall (fun raw => is_table_row (strip raw) = true) rows ->
  strip after <> [] -> is_table_row (strip after) = false ->
  table_data base rows = header_data :: body ->
  Forall (Forall (fun p => paragraph_error p = None)) (header_data :: body) ->
  Forall (fun cell => paragraph_error (styled_header_cell base cell) = None) header_data ->
  table_error (map (styled_header_cell base) header_data :: body)
              (table_widths (List.length header_data)) = None ->
  fst (foldM (process_line base) (rows ++ [after]) (scanning fs))
  = inr (scanning
           (fs ++ [Table (map (styled_header_cell base) header_data :: body)
                         (table_widths (List.length header_data));
                   Spacer (1 # 10)])).
Proof.
  intros T NB NT D A H Tb.
  assert (NE : rows <> []) by (intros Z; subst rows; discriminate D).
  rewrite foldM_app. rewrite <- D in A.
  rewrite (table_run_accepted rows (scanning fs) T NE A). rewrite D.
  unfold bind. cbn [foldM in_table scanning current_table_data app].
  set (s1 := ParseState fs (header_data :: body) true).
  rewrite (process_line_closes_table base s1 after eq_refl NB NT).
  assert (Hn : header_data <> []).
  { pose proof (table_data_rows_have_cells rows) as R. rewrite D in R.
    inversion R; assumption. }
  rewrite (end_of_table_accepted s1 header_data body eq_refl Hn H Tb).
  reflexivity.
Qed.

End TableEngine.


(** X1: a table row whose cells are all empty once '-', ':' and spaces are
    removed adds no row, emits nothing and leaves the table open; hence N
    table rows (N >= 2) of which one is such a separator, closed by a line
    that is not a table row, give, on a ReportLab that accepts the cells, the
    header and the table, a Table of exactly N-1 rows: the first data row as
    the header and the other data rows below it. *)
Theorem separator_row_adds_no_row (RL : ReportLab) (PY : Python) (base : str) :
  (forall st raw,
      is_table_row (strip raw) = true -> is_rule_line raw = true ->
      process_line base st raw
      = ret (ParseState (flowables st)
                        (if in_table st then current_table_data st else []) true))
  /\
  (forall fs rows after header_data body,
      Forall (fun raw => is_table_row (strip raw) = true) rows ->
      (2 <= List.length rows)%nat ->
      List.length (filter is_rule_line rows) = 1%nat ->
      strip after <> [] -> is_table_row (strip after) = false ->
      table_data base rows = header_data :: body ->
      Forall (Forall (fun p => paragraph_error p = None)) (header_data :: body) ->
      Forall (fun cell => paragraph_error (styled_header_cell base cell) = None) header_data ->
      table_error (map (styled_header_cell base) header_data :: body)
                  (table_widths (List.length header_data)) = None ->
      fst (foldM (process_line base) (rows ++ [after]) (scanning fs))
      = inr (scanning
               (fs ++ [Table (map (styled_header_cell base) header_data :: body)
                             (table_widths (List.length header_data));
                       Spacer (1 # 10)]))
      /\ List.length (map (styled_header_cell base) header_data :: body)
         = (List.length rows - 1)%nat).
Proof.
  split.
  - intros st raw T R. rewrite (process_line_table_row base st raw T).
    apply table_row_rule. exact R.
  - intros fs rows after header_data body F N One NB NT D A H Tb. split.
    + apply (closed_table_is_built base fs rows after header_data body); assumption.
    + pose proof (table_data_length base rows) as L. rewrite D in L.
      cbn [List.length] in L |- *. rewrite L. unfold data_rows.
      pose proof (filter_split_length is_rule_line rows) as P. lia.
Qed.

Lemma separator_row_adds_no_row_witness :
  let rows := [u "| Detail | Breakdown |"; u "|---|---|"; u "| **Pros** | low cost |"] in
  fst (foldM (@process_line lenient_reportlab reference_python helvetica)
             (rows ++ [u "Next paragraph"]) (scanning []))
  = inr (scanning
           ([] ++ [Table [[header_cell "<b>Detail</b>"; header_cell "<b>Breakdown</b>"];
                          [body_cell "<b>Pros</b>"; body_cell "low cost"]]
                         [35 # 100; 65 # 100];
                   Spacer (1 # 10)])).
Proof.
  intros rows.
  refine (proj1 (proj2 (separator_row_adds_no_row lenient_reportlab reference_python helvetica)
                   [] rows (u "Next paragraph")
                   [body_cell "Detail"; body_cell "Breakdown"]
                   [[body_cell "<b>Pros</b>"; body_cell "low cost"]]
                   _ _ _ _ _ _ _ _ _)).
  - repeat constructor.
  - cbn. lia.
  - reflexivity.
  - vm_compute. discriminate.
  - reflexivity.
  - vm_compute. reflexivity.
  - repeat constructor.
  - repeat constructor.
  - reflexivity.
Defined.

(** C7 at the three table lines ["| Detail | Breakdown |", "|---|---|",
    "| **Cost** | low |"]: the separator adds no row and leaves the table
    open, so that two rows are buffered; closed by a further line the table
    is built with exactly these two rows; at the end of the input the two
    rows stay in the buffer and the flowables handed to [doc.build] hold no
    table. *)
Theorem separator_table_at_end_of_input_is_lost :
  let rows := ["| Detail | Breakdown |"; "|---|---|"; "| **Cost** | low |"] in
  let run := @parse_markdown lenient_reportlab reference_python helvetica [] in
  fst (run (text_of_lines (firstn 2 rows)))
  = inr (ParseState [] [[body_cell "Detail"; body_cell "Breakdown"]] true)
  /\ fst (run (text_of_lines (rows ++ ["Next paragraph"])))
     = inr (scanning [Table [[header_cell "<b>Detail</b>"; header_cell "<b>Breakdown</b>"];
                             [body_cell "<b>Cost</b>"; body_cell "low"]]
                            [35 # 100; 65 # 100];
                      Spacer (1 # 10)])
  /\ fst (run (text_of_lines rows))
     = inr (ParseState []
                       [[body_cell "Detail"; body_cell "Breakdown"];
                        [body_cell "<b>Cost</b>"; body_cell "low"]]
                       true)
  /\ exists fs log,
      @report_flowables lenient_reportlab reference_python
        (JStr (text_of_lines rows)) (JStr (u "User")) (JStr (u "Pune")) (JStr (u "english"))
      = (inr (ReportTemplate, fs), log)
      /\ existsb is_table fs = false.
Proof.
  split; [vm_compute; reflexivity |].
  split; [vm_compute; reflexivity |].
  split; [vm_compute; reflexivity |].
  eexists. eexists. split; vm_compute; reflexivity.
Qed.

(* ===================================================================== *)
(** ** Lines next to a table *)
(* ===================================================================== *)

(** C1 at ["| A | B |", "| 1 | 2 |", "After the table"]: the third line closes
    the table and is not emitted, although the same line in the scanning
    state is emitted as a paragraph. *)
Theorem line_closing_a_table_is_dropped :
  let run := @parse_markdown lenient_reportlab reference_python helvetica [] in
  fst (run (text_of_lines ["| A | B |"; "| 1 | 2 |"; "After the table"]))
  = inr (scanning [Table [[header_cell "<b>A</b>"; header_cell "<b>B</b>"];
                          [body_cell "1"; body_cell "2"]]
                         [35 # 100; 65 # 100];
                   Spacer (1 # 10)])
  /\ fst (run (text_of_lines ["After the table"]))
     = inr (scanning [body_paragraph "After the table"]).
Proof. split; vm_compute; reflexivity. Qed.

(** C2 at ["Intro", "| A | B |", "| 1 | 2 |"]: the loop ends in the table
    state with both rows still in the buffer, and the flowables handed to
    [doc.build] hold no table. *)
Theorem table_at_end_of_input_is_lost :
  let md := text_of_lines ["Intro"; "| A | B |"; "| 1 | 2 |"] in
  fst (@parse_markdown lenient_reportlab reference_python helvetica [] md)
  = inr (ParseState [body_paragraph "Intro"]
                    [[body_cell "A"; body_cell "B"]; [body_cell "1"; body_cell "2"]]
                    true)
  /\ exists fs log,
      @report_flowables lenient_reportlab reference_python
        (JStr md) (JStr (u "User")) (JStr (u "Pune")) (JStr (u "english"))
      = (inr (ReportTemplate, fs), log)
      /\ existsb is_table fs = false
      /\ In (body_paragraph "Intro") fs.
Proof.
  split; [vm_compute; reflexivity |].
  eexists. eexists. split; [vm_compute; reflexivity |].
  split; [vm_compute; reflexivity |]. vm_compute. tauto.
Qed.


(* ===================================================================== *)
(** ** The other branches of the loop, in the scanning state *)
(* ===================================================================== *)

Section ScanningBranches.

Context {RL : ReportLab} {PY : Python}.
Variable base : str.

Lemma decimal_bounds (c : char) :
  is_decimal c = true -> (48 <= c <= 57) \/ 128 <= c.
Proof.
  unfold is_decimal. intros H. apply orb_true_iff in H. destruct H as [H | H];
    apply andb_true_iff in H; destruct H as [H1 H2].
  - left. apply N.leb_le in H1, H2. lia.
  - right. apply N.leb_le in H1. exact H1.
Qed.

Lemma startswith_head_differs (a c : char) (p s : str) :
  a <> c -> startswith (a :: p) (c :: s) = false.
Proof. intros H. cbn. apply N.eqb_neq in H. rewrite H. reflexivity. Qed.

(** [re.match] succeeds on digits, a period and a space. *)
Lemma numbered_rest_digits (d : bool) (ds rest : str) :
  Forall (fun c => is_decimal c = true) ds ->
  d = true \/ ds <> [] ->
  numbered_rest d (ds ++ 46 :: 32 :: rest) = Some rest.
Proof.
  intros F. revert d. induction F as [| c ds C F IH]; intros d D.
  - destruct D as [D | D]; [subst d; reflexivity | contradiction].
  - cbn [app numbered_rest]. rewrite C. apply IH. left. reflexivity.
Qed.

(** [re.match] fails when the period is followed by anything else. *)
Lemma numbered_rest_needs_space (d : bool) (ds rest : str) (w : char) :
  Forall (fun c => is_decimal c = true) ds -> w <> 32 ->
  numbered_rest d (ds ++ 46 :: w :: rest) = None.
Proof.
  intros F W. revert d. induction F as [| c ds C F IH]; intros d.
  - cbn. apply N.eqb_neq in W. rewrite W, andb_false_r. reflexivity.
  - cbn [app numbered_rest]. rewrite C. apply IH.
Qed.

(** [re.match] fails when a character that is neither a digit nor a period
    comes before any period. *)
Lemma numbered_rest_no_period (d : bool) (pre rest : str) (c : char) :
  ~ In 46 pre -> is_decimal c = false -> c <> 46 ->
  numbered_rest d (pre ++ c :: rest) = None.
Proof.
  revert d. induction pre as [| a pre IH]; intros d P C N.
  - cbn [app numbered_rest]. rewrite C. apply N.eqb_neq in N. rewrite N, andb_false_r.
    destruct rest; reflexivity.
  - cbn [app numbered_rest]. destruct (is_decimal a).
    + apply IH; [intros I; apply P; right; exact I | exact C | exact N].
    + assert (A : (a =? 46) = false).
      { apply N.eqb_neq. intros E. apply P. left. subst a. reflexivity. }
      rewrite A, andb_false_r. destruct (pre ++ c :: rest); reflexivity.
Qed.

(** [line.split('.')[0]] is what stands before the first period. *)
Lemma split_acc_head (sep : char) (cur pre rest : str) :
  ~ In sep pre ->
  hd [] (split_acc sep cur (pre ++ sep :: rest)) = rev cur ++ pre.
Proof.
  revert cur. induction pre as [| a pre IH]; intros cur P.
  - cbn. rewrite N.eqb_refl. cbn. rewrite app_nil_r. reflexivity.
  - cbn [app split_acc]. assert (A : (a =? sep) = false).
    { apply N.eqb_neq. intros E. apply P. left. subst a. reflexivity. }
    rewrite A, IH by (intros I; apply P; right; exact I).
    cbn [rev]. rewrite <- app_assoc. reflexivity.
Qed.

Lemma digits_have_no_period (ds : str) :
  Forall (fun c => is_decimal c = true) ds -> ~ In 46 ds.
Proof.
  intros F I. rewrite Forall_forall in F. apply F in I. discriminate I.
Qed.

(** [re.match] succeeds only on digits, a period and a space. *)
Lemma numbered_rest_inv (d : bool) (line rest : str) :
  numbered_rest d line = Some rest ->
  exists ds, Forall (fun c => is_decimal c = true) ds
             /\ (d = true \/ ds <> [])
             /\ line = ds ++ 46 :: 32 :: rest.
Proof.
  revert d. induction line as [| c t IH]; intros d; cbn [numbered_rest]; [discriminate |].
  destruct (is_decimal c) eqn:C.
  - intros E. destruct (IH true E) as (ds & F & _ & L).
    exists (c :: ds). split; [constructor; assumption |].
    split; [right; discriminate | cbn [app]; rewrite L; reflexivity].
  - destruct t as [| c' rest']; [discriminate |].
    destruct d; cbn [andb]; [| discriminate].
    destruct (c =? 46) eqn:C1; cbn [andb]; [| discriminate].
    destruct (c' =? 32) eqn:C2; [| discriminate].
    intros E. inversion E; subst rest'.
    apply N.eqb_eq in C1, C2. subst c c'.
    exists []. split; [constructor |]. split; [left; reflexivity | reflexivity].
Qed.

Lemma process_line_numbered fs ctd raw ds rest :
  ds <> [] -> Forall (fun c => is_decimal c = true) ds ->
  strip raw = ds ++ 46 :: 32 :: rest ->
  process_line base (ParseState fs ctd false) raw
  = emits (ParseState fs ctd false) (emphasis (strip rest))
          (custom_style base "CustomNumber") (Some (ds ++ u ".")).
Proof.
  intros N F E. unfold process_line. rewrite E.
  assert (NR : numbered_rest false (ds ++ 46 :: 32 :: rest) = Some rest).
  { apply numbered_rest_digits; [exact F | right; exact N]. }
  assert (HD : hd [] (split 46 (ds ++ 46 :: 32 :: rest)) = ds).
  { unfold split. rewrite split_acc_head by (apply digits_have_no_period; exact F).
    reflexivity. }
  rewrite NR, HD. destruct ds as [| c ds]; [contradiction |].
  inversion F as [| ? ? C F']; subst. apply decimal_bounds in C.
  unfold is_table_row. eval_literals. cbn [app in_table andb].
  rewrite !startswith_head_differs by lia. reflexivity.
Qed.

End ScanningBranches.

(** C9, as the code has it: a line made of digits, a period, a space and the
    item text is emitted with the bullet text "digits." copied from the line;
    when the period is followed by any other character, whitespace or not,
    the line is not a numbered item at all. "3. Third step" gets the marker
    "3.". *)
Theorem numbered_marker_is_literal (RL : ReportLab) (PY : Python)
    (base : str) (fs : list flowable) (ctd : list (list para)) (raw ds rest : str) :
  ds <> [] -> Forall (fun c => is_decimal c = true) ds ->
  strip raw = ds ++ 46 :: 32 :: rest ->
  process_line base (ParseState fs ctd false) raw
  = emits (ParseState fs ctd false) (emphasis (strip rest))
          (custom_style base "CustomNumber") (Some (ds ++ u "."))
  /\ snd (process_line base (ParseState fs ctd false) raw)
     = [CallParagraph (Para (emphasis (strip rest)) (custom_style base "CustomNumber")
                            (Some (ds ++ u ".")))]
  /\ (forall w rest', w <> 32 -> numbered_rest false (ds ++ 46 :: w :: rest') = None).
Proof.
  intros N F E. pose proof (process_line_numbered base fs ctd raw ds rest N F E) as P.
  split; [exact P |]. split.
  - rewrite P. unfold emits, Paragraph, called, bind.
    destruct (paragraph_error _); reflexivity.
  - intros w rest' W. apply numbered_rest_needs_space; assumption.
Qed.

Lemma numbered_marker_is_literal_witness :
  @process_line lenient_reportlab reference_python helvetica (scanning []) (u "3. Third step")
  = (inr (scanning [FParagraph (Para (u "Third step") (custom_style helvetica "CustomNumber")
                                     (Some (u "3.")))]),
     [CallParagraph (Para (u "Third step") (custom_style helvetica "CustomNumber")
                          (Some (u "3.")))]).
Proof.
  pose proof (numbered_marker_is_literal lenient_reportlab reference_python helvetica
                [] [] (u "3. Third step") (u "3") (u "Third step")) as W.
  destruct W as (W & _).
  - vm_compute. discriminate.
  - repeat constructor.
  - vm_compute. reflexivity.
  - unfold scanning. rewrite W. vm_compute. reflexivity.
Defined.

(** C9 fails for whitespace other than a space: in "3.<TAB>Third step" the
    digits and the period are followed by a tab; the line is not a numbered
    item, it is emitted as a body paragraph without a marker. *)
Lemma tab_after_the_period_is_no_numbered_item :
  let line := u "3." ++ [9] ++ u "Third step" in
  (line = u "3" ++ 46 :: 9 :: u "Third step"
   /\ forallb (@is_decimal reference_python) (u "3") = true /\ isspace 9 = true)
  /\ @process_line lenient_reportlab reference_python helvetica (scanning []) line
     = (inr (scanning [FParagraph (Para line (custom_style helvetica "CustomBody") None)]),
        [CallParagraph (Para line (custom_style helvetica "CustomBody") None)]).
Proof.
  split; [split; [| split] |]; vm_compute; reflexivity.
Qed.


(* ===================================================================== *)
(** ** Where the emphasis substitutions are applied *)
(* ===================================================================== *)

Section EmphasisUse.

Context {RL : ReportLab} {PY : Python}.
Variable base : str.

Lemma process_line_body fs ctd raw :
  is_body_line (strip raw) = true ->
  process_line base (ParseState fs ctd false) raw
  = if negb (Str.eqb (strip (emphasis (strip raw))) [])
    then emits (ParseState fs ctd false) (emphasis (strip raw))
               (custom_style base "CustomBody") None
    else ret (ParseState fs ctd false).
Proof.
  unfold is_body_line, process_line. intros H.
  repeat (apply andb_true_iff in H; destruct H as [H ?]).
  repeat match goal with
         | K : negb ?b = true |- _ => apply negb_true_iff in K; rewrite K
         end.
  cbn [in_table andb].
  destruct (numbered_rest false (strip raw)); [discriminate |]. reflexivity.
Qed.

Lemma process_line_heading fs ctd raw t :
  let st := ParseState fs ctd false in
  (strip raw = u "# " ++ t ->
   process_line base st raw
   = emits st (u "<b>" ++ strip t ++ u "</b>") (custom_style base "CustomH1") None)
  /\ (strip raw = u "## " ++ t ->
      process_line base st raw
      = emits st (u "<b>" ++ strip t ++ u "</b>") (custom_style base "CustomH2") None)
  /\ (strip raw = u "### " ++ t ->
      process_line base st raw
      = emits st (u "<b>" ++ strip t ++ u "</b>") (custom_style base "CustomH3") None).
Proof.
  intros st. repeat split; intros E; unfold process_line; rewrite E; reflexivity.
Qed.

Lemma process_line_bullet fs ctd raw t :
  strip raw = u "* " ++ t \/ strip raw = u "- " ++ t ->
  process_line base (ParseState fs ctd false) raw
  = emits (ParseState fs ctd false) (emphasis (strip t))
          (custom_style base "CustomBullet") (Some (u "•")).
Proof.
  intros [E | E]; unfold process_line; rewrite E; reflexivity.
Qed.

Lemma process_line_disclaimer fs ctd raw t :
  strip raw = u "Disclaimer:" ++ t \/ strip raw = u "अस्वीकरण:" ++ t ->
  process_line base (ParseState fs ctd false) raw
  = emits (ParseState fs ctd false) (u "<i>" ++ strip raw ++ u "</i>")
          (custom_style base "CustomDisclaimer") None.
Proof.
  intros [E | E]; unfold process_line; rewrite E.
  - reflexivity.
  - assert (NR : numbered_rest false (u "अस्वीकरण:" ++ t) = None).
    { change (u "अस्वीकरण:" ++ t) with (u "अस्वीकरण" ++ 58 :: t).
      apply numbered_rest_no_period; [| reflexivity | discriminate].
      vm_compute. intuition discriminate. }
    rewrite NR. reflexivity.
Qed.

(** The paragraphs built by a comprehension are built from the elements. *)
Lemma mapM_paragraph_calls {A} (markup : A -> str) (style : pstyle) (l : list A) (c : call) :
  In c (snd (mapM (fun a => Paragraph (markup a) style None) l)) ->
  exists a, In a l /\ c = CallParagraph (Para (markup a) style None).
Proof.
  induction l as [| a l IH]; cbn [mapM]; [intros [] |].
  unfold Paragraph at 1, called, bind at 1.
  destruct (paragraph_error _).
  - cbn. intros [I | []]. exists a. split; [left; reflexivity | symmetry; exact I].
  - destruct (bind _ _) as [r l'] eqn:B. cbn. intros [I | I].
    + exists a. split; [left; reflexivity | symmetry; exact I].
    + assert (L : l' = snd (mapM (fun a0 => Paragraph (markup a0) style None) l)).
      { unfold bind in B. destruct (mapM _ l) as [[e | bs] l2]; cbn in B.
        - inversion B. reflexivity.
        - inversion B. rewrite app_nil_r. reflexivity. }
      rewrite L in I. destruct (IH I) as (a' & Ia & Ea).
      exists a'. split; [right; exact Ia | exact Ea].
Qed.

Lemma table_row_cell_calls st line c :
  In c (snd (table_row base st line)) ->
  exists cell, In cell (row_cells line)
               /\ c = CallParagraph (Para (emphasis cell)
                                          (ParagraphStyle (u "TableBody") base) None).
Proof.
  unfold table_row. destruct (negb (forallb is_rule_cell (row_cells line))); [| intros []].
  unfold bind at 1.
  destruct (mapM _ (row_cells line)) as [[e | ps] l] eqn:Mp.
  - intros I.
    apply (mapM_paragraph_calls emphasis (ParagraphStyle (u "TableBody") base) (row_cells line)).
    rewrite Mp. exact I.
  - cbn. rewrite app_nil_r. intros I.
    apply (mapM_paragraph_calls emphasis (ParagraphStyle (u "TableBody") base) (row_cells line)).
    rewrite Mp. exact I.
Qed.

End EmphasisUse.

(** C6, as the code has it: in the scanning state the two emphasis
    substitutions are applied to the text of body paragraphs, bullet items,
    numbered items and table cells: a table line that is not a rule line
    puts into the buffer the row of its cells, each a paragraph of the
    emphasised cell text, and builds nothing else; a heading is wrapped
    whole in [<b>] and a disclaimer line whole in [<i>], with the text
    between the tags left as written. *)
Theorem emphasis_applied_to_body_lists_and_cells (RL : ReportLab) (PY : Python)
    (base : str) (fs : list flowable) (ctd : list (list para)) :
  let st := ParseState fs ctd false in
  (forall raw, is_body_line (strip raw) = true ->
      process_line base st raw
      = if negb (Str.eqb (strip (emphasis (strip raw))) [])
        then emits st (emphasis (strip raw)) (custom_style base "CustomBody") None
        else ret st)
  /\ (forall raw t, strip raw = u "* " ++ t \/ strip raw = u "- " ++ t ->
        process_line base st raw
        = emits st (emphasis (strip t)) (custom_style base "CustomBullet") (Some (u "•")))
  /\ (forall raw ds rest,
        ds <> [] -> Forall (fun c => is_decimal c = true) ds ->
        strip raw = ds ++ 46 :: 32 :: rest ->
        process_line base st raw
        = emits st (emphasis (strip rest)) (custom_style base "CustomNumber")
                (Some (ds ++ u ".")))
  /\ (forall st0 raw c, is_table_row (strip raw) = true ->
        In c (snd (process_line base st0 raw)) ->
        exists cell, In cell (row_cells (strip raw))
                     /\ c = CallParagraph (Para (emphasis cell)
                                                (ParagraphStyle (u "TableBody") base) None))
  /\ (forall st0 raw,
        is_table_row (strip raw) = true -> is_rule_line raw = false ->
        let row := map (fun cell => Para (emphasis cell)
                                         (ParagraphStyle (u "TableBody") base) None)
                       (row_cells (strip raw)) in
        Forall (fun p => paragraph_error p = None) row ->
        process_line base st0 raw
        = (inr (ParseState (flowables st0)
                  ((if in_table st0 then current_table_data st0 else []) ++ [row]) true),
           map CallParagraph row))
  /\ (forall raw t,
        (strip raw = u "# " ++ t ->
         process_line base st raw
         = emits st (u "<b>" ++ strip t ++ u "</b>") (custom_style base "CustomH1") None)
        /\ (strip raw = u "## " ++ t ->
            process_line base st raw
            = emits st (u "<b>" ++ strip t ++ u "</b>") (custom_style base "CustomH2") None)
        /\ (strip raw = u "### " ++ t ->
            process_line base st raw
            = emits st (u "<b>" ++ strip t ++ u "</b>") (custom_style base "CustomH3") None))
  /\ (forall raw t,
        strip raw = u "Disclaimer:" ++ t \/ strip raw = u "अस्वीकरण:" ++ t ->
        process_line base st raw
        = emits st (u "<i>" ++ strip raw ++ u "</i>")
                (custom_style base "CustomDisclaimer") None).
Proof.
  intros st. split; [intros raw B; apply process_line_body; exact B |].
  split; [intros raw t E; apply process_line_bullet; exact E |].
  split; [intros raw ds rest N F E; apply process_line_numbered; assumption |].
  split.
  { intros st0 raw c T I. rewrite (process_line_table_row base st0 raw T) in I.
    apply (table_row_cell_calls base st0 (strip raw) c I). }
  split.
  { intros st0 raw T R row A. rewrite (process_line_table_row base st0 raw T).
    apply (table_row_accepted base st0 (strip raw) R A). }
  split; [intros raw t; apply process_line_heading |].
  intros raw t E. apply (process_line_disclaimer base fs ctd raw t E).
Qed.

Lemma emphasis_applied_to_body_lists_and_cells_witness :
  @process_line lenient_reportlab reference_python helvetica (scanning []) (u "- **Pros**: cheap")
  = @emits lenient_reportlab (scanning []) (u "<b>Pros</b>: cheap")
           (custom_style helvetica "CustomBullet") (Some (u "•"))
  /\ @process_line lenient_reportlab reference_python helvetica (scanning [])
       (u "| **Pros** | *low* cost |")
     = (inr (ParseState [] [[body_cell "<b>Pros</b>"; body_cell "<i>low</i> cost"]] true),
        [CallParagraph (body_cell "<b>Pros</b>"); CallParagraph (body_cell "<i>low</i> cost")]).
Proof.
  destruct (emphasis_applied_to_body_lists_and_cells lenient_reportlab reference_python
              helvetica [] []) as (_ & W & _ & _ & C & _).
  split.
  - unfold scanning. rewrite (W (u "- **Pros**: cheap") (u "**Pros**: cheap")).
    + vm_compute. reflexivity.
    + right. vm_compute. reflexivity.
  - rewrite (C (scanning []) (u "| **Pros** | *low* cost |")).
    + vm_compute. reflexivity.
    + reflexivity.
    + reflexivity.
    + repeat constructor.
Defined.

(** C6 fails for headings and disclaimers: the stars of ["# **Bold** title"]
    and of ["Disclaimer: *not* advice"] reach ReportLab as literal characters. *)
Lemma heading_and_disclaimer_keep_their_stars :
  let run := @process_line lenient_reportlab reference_python helvetica (scanning []) in
  fst (run (u "# **Bold** title"))
  = inr (scanning [FParagraph (Para (u "<b>**Bold** title</b>")
                                    (custom_style helvetica "CustomH1") None)])
  /\ fst (run (u "Disclaimer: *not* advice"))
     = inr (scanning [FParagraph (Para (u "<i>Disclaimer: *not* advice</i>")
                                       (custom_style helvetica "CustomDisclaimer") None)])
  /\ emphasis (u "**Bold** title") = u "<b>Bold</b> title"
  /\ emphasis (u "Disclaimer: *not* advice") = u "Disclaimer: <i>not</i> advice".
Proof. repeat split; vm_compute; reflexivity. Qed.

(* ===================================================================== *)
(** ** The final disclaimer *)
(* ===================================================================== *)

(** C5, as the code has it: the flowables handed to [doc.build] are those of
    the header and of the parsed lines, followed by a spacer and the
    disclaimer of the report's language exactly when none of them has
    'Disclaimer' or 'अस्वीकरण' in its string form; when it is added, the
    default disclaimer is the last flowable. *)
Theorem default_disclaimer_rule (RL : ReportLab) (PY : Python)
    (md name location language : json) (doc : template) (fs : list flowable)
    (log : list call) :
  report_flowables md name location language = (inr (doc, fs), log) ->
  exists s base header st l1 l2,
    md = JStr s
    /\ report_header base name location language = (inr header, l1)
    /\ parse_markdown base header s = (inr st, l2)
    /\ fs = (if existsb mentions_disclaimer (flowables st) then flowables st
             else flowables st ++ [Spacer (2 # 10); default_disclaimer base language])
    /\ (existsb mentions_disclaimer (flowables st) = false ->
        last fs (Spacer 0) = default_disclaimer base language).
Proof.
  unfold report_flowables. intros E.
  apply bind_inr in E. destruct E as (s & la & lb & Rq & E & _).
  apply bind_inr in E. destruct E as (d & lc & ld & _ & E & _).
  apply bind_inr in E. destruct E as (base & le & lf & _ & E & _).
  apply bind_inr in E. destruct E as (header & l1 & lg & Hd & E & _).
  apply bind_inr in E. destruct E as (st & l2 & lh & Ps & E & _).
  apply bind_inr in E. destruct E as (fs' & li & lj & Fd & E & _).
  inversion E; subst fs' d. clear E.
  assert (Md : md = JStr s).
  { unfold require_markdown in Rq. destruct (negb (truthy md)); [discriminate |].
    destruct md; try discriminate.
    destruct (Str.eqb (strip s0) []); [discriminate |]. inversion Rq. reflexivity. }
  exists s, base, header, st, l1, l2. repeat split; try assumption.
  - unfold add_final_disclaimer in Fd.
    destruct (existsb mentions_disclaimer (flowables st)); cbn [negb] in Fd.
    + inversion Fd. reflexivity.
    + apply bind_inr in Fd. destruct Fd as (p & lk & ll & P & Fd & _).
      inversion Fd; subst fs. unfold Paragraph, called in P.
      destruct (paragraph_error _); inversion P. reflexivity.
  - intros Nm. unfold add_final_disclaimer in Fd. rewrite Nm in Fd. cbn [negb] in Fd.
    apply bind_inr in Fd. destruct Fd as (p & lk & ll & P & Fd & _).
    inversion Fd; subst fs. unfold Paragraph, called in P.
    destruct (paragraph_error _); inversion P.
    match goal with
    | |- last (?l ++ [?a; ?b]) _ = _ =>
        change (l ++ [a; b]) with (l ++ [a] ++ [b]); rewrite app_assoc, last_last
    end.
    reflexivity.
Qed.

Lemma default_disclaimer_rule_witness :
  let md := JStr (u "Build a warehouse.") in
  let name := JStr (u "User") in
  let location := JStr (u "Pune") in
  let language := JStr (u "english") in
  exists doc fs log,
    @report_flowables lenient_reportlab reference_python md name location language
    = (inr (doc, fs), log)
    /\ exists s base header st l1 l2,
        md = JStr s
        /\ @report_header lenient_reportlab reference_python base name location language
           = (inr header, l1)
        /\ @parse_markdown lenient_reportlab reference_python base header s = (inr st, l2)
        /\ fs = (if existsb (@mentions_disclaimer lenient_reportlab) (flowables st)
                 then flowables st
                 else flowables st ++ [Spacer (2 # 10); default_disclaimer base language])
        /\ (existsb (@mentions_disclaimer lenient_reportlab) (flowables st) = false ->
            last fs (Spacer 0) = default_disclaimer base language).
Proof.
  intros md name location language.
  eexists. eexists. eexists. split; [vm_compute; reflexivity |].
  eapply (default_disclaimer_rule lenient_reportlab reference_python md name location language).
  vm_compute. reflexivity.
Defined.

(** C5 fails at ["## 3. General Disclaimer", "Consult a lawyer."]: no line
    is a disclaimer line and no flowable is a Disclaimer block, yet the word
    in the heading keeps the default disclaimer out, and the last flowable is
    the body paragraph. *)
Lemma heading_word_suppresses_default_disclaimer :
  let md := text_of_lines ["## 3. General Disclaimer"; "Consult a lawyer."] in
  forallb (fun raw => negb (startswith (u "Disclaimer:") (strip raw)
                            || startswith (u "अस्वीकरण:") (strip raw)))
          (split newline md) = true
  /\ exists fs log,
      @report_flowables lenient_reportlab reference_python
        (JStr md) (JStr (u "User")) (JStr (u "Pune")) (JStr (u "english"))
      = (inr (ReportTemplate, fs), log)
      /\ existsb is_disclaimer_block fs = false
      /\ last fs (Spacer 0) = body_paragraph "Consult a lawyer."
      /\ last fs (Spacer 0) <> default_disclaimer helvetica (JStr (u "english")).
Proof.
  split; [vm_compute; reflexivity |].
  eexists. eexists. split; [vm_compute; reflexivity |].
  split; [vm_compute; reflexivity |].
  split; [vm_compute; reflexivity |]. vm_compute. discriminate.
Qed.

(* ===================================================================== *)
(** ** The fallback path *)
(* ===================================================================== *)

Section Fallback.

Context {RL : ReportLab} {PY : Python}.










End Fallback.



(** X22: on a ReportLab that refuses every call the placeholder comes
    back. *)
Example placeholder_when_everything_fails :
  fst (@create_report_pdf failing_reportlab reference_python
         (JStr (u "# Report")) (JStr (u "User")) (JStr (u "Pune")) (JStr (u "english")))
  = inr placeholder.
Proof. vm_compute. reflexivity. Qed.

(* ===================================================================== *)
(** ** The endpoint's input check *)
(* ===================================================================== *)

Lemma download_pdf_object (RL : ReportLab) (PY : Python) (m : list (str * json)) :
  m <> [] ->
  let markdown_text := field m "markdown_text" JNull in
  let name := field m "name" (JStr (u "User")) in
  let location := field m "location" (JStr (u "Not Specified")) in
  let language := field m "language" (JStr (u "english")) in
  download_pdf (JObject m)
  = if negb (truthy markdown_text) || negb (is_str markdown_text)
    then ret (JsonError 400 (u "Invalid or missing markdown_text"))
    else
      try_except
        (pdf_content <- create_report_pdf markdown_text name location language ;;
         ret (SendFile pdf_content (filename language)))
        (fun e => ret (JsonError 500 (u "Failed to generate PDF: " ++ exn_str e))).
Proof.
  intros N markdown_text name location language. unfold download_pdf.
  assert (T : truthy (JObject m) = true) by (destruct m; [contradiction | reflexivity]).
  rewrite T. cbn [negb dict_get]. rewrite !bind_ret_l.
  fold (field m "markdown_text" JNull) (field m "name" (JStr (u "User")))
       (field m "location" (JStr (u "Not Specified")))
       (field m "language" (JStr (u "english"))).
  fold markdown_text name location language.
  destruct (negb (truthy markdown_text) || negb (is_str markdown_text)); reflexivity.
Qed.

(** C4: a request whose [markdown_text] is missing, empty or not a string
    is answered with status 400, and no call to ReportLab is made for it. *)
Theorem invalid_markdown_is_rejected (RL : ReportLab) (PY : Python) (m : list (str * json)) :
  field m "markdown_text" JNull = JStr [] \/ is_str (field m "markdown_text" JNull) = false ->
  download_pdf (JObject m)
  = (inr (JsonError 400 match m with
                        | [] => u "No JSON data received"
                        | _ :: _ => u "Invalid or missing markdown_text"
                        end), []).
Proof.
  intros H. destruct m as [| kv m']; [reflexivity |].
  rewrite download_pdf_object by discriminate. cbv zeta.
  destruct H as [H | H]; rewrite H; [reflexivity |].
  rewrite orb_true_r. reflexivity.
Qed.

Lemma invalid_markdown_is_rejected_witness :
  @download_pdf lenient_reportlab reference_python
    (JObject [(u "name", JStr (u "Asha")); (u "markdown_text", JInt 42)])
  = (inr (JsonError 400 (u "Invalid or missing markdown_text")), []).
Proof.
  apply (invalid_markdown_is_rejected lenient_reportlab reference_python
           [(u "name", JStr (u "Asha")); (u "markdown_text", JInt 42)]).
  right. vm_compute. reflexivity.
Defined.

(** X20: a body that is not truthy ([null], [{}], ...) is answered with
    400 "No JSON data received", without any call to ReportLab. *)
Lemma empty_body_is_rejected (RL : ReportLab) (PY : Python) (data : json) :
  truthy data = false ->
  download_pdf data = (inr (JsonError 400 (u "No JSON data received")), []).
Proof. intros T. unfold download_pdf. rewrite T. reflexivity. Qed.






(** X19: a body that is truthy but not a JSON object has no [get]: the
    handler of the endpoint answers 500, without any call to ReportLab. *)
Lemma non_object_body_is_an_error (RL : ReportLab) (PY : Python) (data : json) :
  truthy data = true -> (forall m, data <> JObject m) ->
  download_pdf data
  = (inr (JsonError 500 (u "Failed to generate PDF: " ++ exn_str (no_attribute data (u "get")))), []).
Proof.
  intros T N. unfold download_pdf. rewrite T. cbn [negb].
  destruct data; try reflexivity. exfalso. eapply N. reflexivity.
Qed.

(* ===================================================================== *)
(** ** Further properties of the parsing loop *)
(* ===================================================================== *)

(** The characters [lstrip] removes are whitespace, and what it leaves does
    not start with whitespace. *)
Lemma lstrip_split (s : str) :
  exists ws, s = ws ++ lstrip s /\ Forall (fun c => isspace c = true) ws.
Proof.
  induction s as [| c t IH].
  - exists []. split; [reflexivity | constructor].
  - cbn [lstrip]. destruct (isspace c) eqn:C.
    + destruct IH as (ws & E & F). exists (c :: ws). split.
      * cbn [app]. rewrite <- E. reflexivity.
      * constructor; assumption.
    + exists []. split; [reflexivity | constructor].
Qed.

Lemma lstrip_head (s t : str) (c : char) : lstrip s = c :: t -> isspace c = false.
Proof.
  induction s as [| a s IH]; cbn [lstrip]; [discriminate |].
  destruct (isspace a) eqn:A; [exact IH |].
  intros E. inversion E; subst. exact A.
Qed.

(** A stripped line does not start with whitespace. *)
Lemma strip_head (raw t : str) (c : char) : strip raw = c :: t -> isspace c = false.
Proof.
  unfold strip, rstrip. intros E.
  destruct (lstrip_split (rev (lstrip raw))) as (ws & R & _).
  apply (f_equal (@rev char)) in R. rewrite rev_involutive, rev_app_distr, E in R.
  cbn [app] in R. eapply lstrip_head. exact R.
Qed.

Lemma lstrip_snoc_nonspace (l : str) (c : char) :
  isspace c = false -> lstrip (l ++ [c]) <> [].
Proof.
  intros C. induction l as [| a l IH]; cbn [app lstrip].
  - rewrite C. discriminate.
  - destruct (isspace a); [exact IH | discriminate].
Qed.

(** A text that starts with a character that is not whitespace is not blank. *)
Lemma strip_cons_nonspace (c : char) (t : str) : isspace c = false -> strip (c :: t) <> [].
Proof.
  intros C. unfold strip, rstrip. cbn [lstrip]. rewrite C. cbn [rev].
  intros E. apply (f_equal (@rev char)) in E. rewrite rev_involutive in E. cbn [rev] in E.
  exact (lstrip_snoc_nonspace (rev t) c C E).
Qed.

(** The first character of the emphasised text: the first character of the
    line, or the '<' of a tag that replaced its stars. *)
Lemma emphasis_head (c : char) (t : str) :
  exists x, emphasis (c :: t) = c :: x \/ emphasis (c :: t) = 60 :: x.
Proof.
  unfold emphasis, bold_pass, italic_pass.
  assert (I : forall a y, (a =? star) = false -> italic_scan 0 (a :: y) = a :: italic_scan 0 y).
  { intros a y A. cbn [italic_scan]. rewrite A. reflexivity. }
  assert (S : forall y, exists x, italic_scan 0 (star :: y) = star :: x
                                  \/ italic_scan 0 (star :: y) = 60 :: x).
  { intros y. rewrite italic_scan_at_star. destruct (find_italic_close y).
    - eexists. right. reflexivity.
    - eexists. left. reflexivity. }
  destruct (c =? star) eqn:C.
  - apply N.eqb_eq in C. subst c.
    assert (B : (exists y, bold_scan 0 (star :: t) = star :: y)
                \/ (exists y, bold_scan 0 (star :: t) = 60 :: y)).
    { destruct t as [| b t']; [left; eexists; reflexivity |].
      destruct (b =? star) eqn:Bs.
      - apply N.eqb_eq in Bs. subst b. rewrite bold_scan_at_stars.
        destruct (find_bold_close t'); [right | left]; eexists; reflexivity.
      - left. rewrite (bold_scan_star_other b t' Bs). eexists. reflexivity. }
    destruct B as [(y & B) | (y & B)]; rewrite B.
    + apply S.
    + exists (italic_scan 0 y). right. apply I. reflexivity.
  - rewrite (bold_scan_other c t C). exists (italic_scan 0 (bold_scan 0 t)).
    left. apply I. exact C.
Qed.

(** The guard [if processed_line.strip()] of the body branch never fails. *)
Lemma emphasis_not_blank (line : str) :
  line <> [] -> (forall c t, line = c :: t -> isspace c = false) ->
  strip (emphasis line) <> [].
Proof.
  intros N H. destruct line as [| c t]; [contradiction |].
  specialize (H c t eq_refl).
  destruct (emphasis_head c t) as (x & [E | E]); rewrite E;
    apply strip_cons_nonspace; [exact H | reflexivity].
Qed.

Section Steps.
Context {RL : ReportLab} {PY : Python}.
Variable base : str.

Lemma emits_inr st markup style bullet st' log :
  emits st markup style bullet = (inr st', log) ->
  st' = append st (Para markup style bullet)
  /\ log = [CallParagraph (Para markup style bullet)]
  /\ paragraph_error (Para markup style bullet) = None.
Proof.
  unfold emits, Paragraph, called, bind.
  destruct (paragraph_error _); [discriminate |].
  intros E. inversion E. repeat split.
Qed.

(** In the scanning state a line that is neither blank nor a table row adds
    exactly one paragraph and leaves the table variables alone. *)
Lemma process_line_scanning_step st raw st' log :
  in_table st = false -> strip raw <> [] -> is_table_row (strip raw) = false ->
  process_line base st raw = (inr st', log) ->
  exists p, st' = append st p /\ log = [CallParagraph p]
            /\ exists name, para_style p = custom_style base name.
Proof.
  intros I N T E. unfold process_line in E.
  rewrite (eqb_nil_false _ N), T, I in E. cbn [andb] in E. cbv zeta in E.
  pose proof (emphasis_not_blank (strip raw) N (fun c t => strip_head raw t c)) as NB.
  rewrite (eqb_nil_false _ NB) in E. cbn [negb] in E.
  repeat match type of E with
         | (if ?c then _ else _) = _ => destruct c
         | (match ?c with _ => _ end) = _ => destruct c
         end;
    apply emits_inr in E; destruct E as (E1 & E2 & _);
    eexists; (split; [exact E1 | split; [exact E2 | eexists; reflexivity]]).
Qed.

(** Every step of the loop that raises nothing is of one of four kinds. *)
Lemma process_line_cases st raw st' log :
  process_line base st raw = (inr st', log) ->
  (strip raw = [] /\ st' = st /\ log = [])
  \/ (is_table_row (strip raw) = true /\ table_row base st (strip raw) = (inr st', log))
  \/ (strip raw <> [] /\ is_table_row (strip raw) = false /\ in_table st = true
      /\ end_of_table base st = (inr st', log))
  \/ (strip raw <> [] /\ is_table_row (strip raw) = false /\ in_table st = false
      /\ exists p, st' = append st p /\ log = [CallParagraph p]
                   /\ exists name, para_style p = custom_style base name).
Proof.
  intros E. destruct (strip raw) as [| c t] eqn:S.
  - left. rewrite (process_line_blank base st raw S) in E. inversion E. auto.
  - right. assert (N : strip raw <> []) by (rewrite S; discriminate).
    rewrite <- S in *. destruct (is_table_row (strip raw)) eqn:T.
    + left. rewrite (process_line_table_row base st raw T) in E. auto.
    + right. destruct (in_table st) eqn:I.
      * left. rewrite (process_line_closes_table base st raw I N T) in E. auto.
      * right. repeat split; try assumption.
        apply (process_line_scanning_step st raw st' log I N T E).
Qed.

End Steps.

Section Loop.
Context {RL : ReportLab} {PY : Python}.
Variable base : str.

(** What a table line does when nothing is raised. *)
Lemma table_row_inr st line st' log :
  table_row base st line = (inr st', log) ->
  let data := if in_table st then current_table_data st else [] in
  let row := map (fun cell => Para (emphasis cell) (ParagraphStyle (u "TableBody") base) None)
                 (row_cells line) in
  flowables st' = flowables st /\ in_table st' = true
  /\ ((forallb is_rule_cell (row_cells line) = true /\ current_table_data st' = data /\ log = [])
      \/ (forallb is_rule_cell (row_cells line) = false /\ row_cells line <> []
          /\ current_table_data st' = data ++ [row] /\ log = map CallParagraph row)).
Proof.
  unfold table_row. destruct (forallb is_rule_cell (row_cells line)) eqn:R; cbn [negb].
  - intros E. inversion E; subst. cbn. repeat split. left. repeat split.
  - intros E. apply bind_inr in E. destruct E as (ps & l1 & l2 & P & E & L).
    inversion E; subst st' l2. apply (mapM_paragraph_inr emphasis (fun _ => ParagraphStyle (u "TableBody") base)) in P.
    destruct P as (P1 & P2 & _).
    cbn. repeat split. right. repeat split.
    + intros Z. rewrite Z in R. discriminate R.
    + rewrite P1. reflexivity.
    + subst log. rewrite app_nil_r, P2, P1. reflexivity.
Qed.

Lemma process_line_extends st raw st' log :
  process_line base st raw = (inr st', log) ->
  exists ext, flowables st' = flowables st ++ ext.
Proof.
  intros E. destruct (process_line_cases base st raw st' log E)
    as [(_ & S & _) | [(_ & T) | [(_ & _ & _ & T) | (_ & _ & _ & p & S & _)]]].
  - subst st'. exists []. rewrite app_nil_r. reflexivity.
  - apply table_row_inr in T. destruct T as (F & _). exists []. rewrite app_nil_r. exact F.
  - destruct (end_of_table_result base st st' log T) as (_ & _ & F0 & F1).
    destruct (current_table_data st) as [| h b] eqn:D.
    + exists []. rewrite app_nil_r. apply F0. reflexivity.
    + destruct F1 as [(d & w & F & _) | (ps & F & _)]; [discriminate | |];
        eexists; exact F.
  - subst st'. eexists. reflexivity.
Qed.

Lemma foldM_extends lines st st' log :
  foldM (process_line base) lines st = (inr st', log) ->
  exists ext, flowables st' = flowables st ++ ext.
Proof.
  revert st log. induction lines as [| raw lines IH]; intros st log; cbn [foldM].
  - intros E. inversion E. exists []. rewrite app_nil_r. reflexivity.
  - intros E. apply bind_inr in E. destruct E as (s1 & l1 & l2 & E1 & E2 & _).
    destruct (process_line_extends st raw s1 l1 E1) as (e1 & F1).
    destruct (IH s1 l2 E2) as (e2 & F2).
    exists (e1 ++ e2). rewrite F2, F1, app_assoc. reflexivity.
Qed.

Lemma process_line_buffer_ok st raw st' log :
  buffer_ok st -> process_line base st raw = (inr st', log) -> buffer_ok st'.
Proof.
  intros [B1 B2] E. destruct (process_line_cases base st raw st' log E)
    as [(_ & S & _) | [(_ & T) | [(_ & _ & _ & T) | (_ & _ & _ & p & S & _)]]].
  - subst st'. split; assumption.
  - apply table_row_inr in T. destruct T as (_ & I & T). split; [rewrite I; discriminate |].
    assert (D : Forall (fun row : list para => row <> [])
                  (if in_table st then current_table_data st else [])).
    { destruct (in_table st); [exact B2 | constructor]. }
    destruct T as [(_ & C & _) | (_ & N & C & _)]; rewrite C; [exact D |].
    apply Forall_app. split; [exact D |]. constructor; [| constructor].
    destruct (row_cells (strip raw)); [contradiction | discriminate].
  - destruct (end_of_table_result base st st' log T) as (_ & C & _).
    unfold buffer_ok. rewrite C. split; [reflexivity | constructor].
  - subst st'. split; assumption.
Qed.

Lemma foldM_buffer_ok lines st st' log :
  buffer_ok st -> foldM (process_line base) lines st = (inr st', log) -> buffer_ok st'.
Proof.
  revert st log. induction lines as [| raw lines IH]; intros st log B; cbn [foldM].
  - intros E. inversion E; subst. exact B.
  - intros E. apply bind_inr in E. destruct E as (s1 & l1 & l2 & E1 & E2 & _).
    eapply IH; [| exact E2]. eapply process_line_buffer_ok; eassumption.
Qed.

End Loop.

(** X3: the loop keeps its table variables consistent: whenever it is outside
    a table the buffer is empty, no buffered row is empty, and so the column
    widths of a table can always be computed (no division by zero), one per
    header cell. *)
Theorem table_buffer_invariant (RL : ReportLab) (PY : Python) (base : str)
    (header : list flowable) (s : str) (st : parse_state) (log : list call) :
  parse_markdown base header s = (inr st, log) ->
  buffer_ok st
  /\ forall header_data body,
      current_table_data st = header_data :: body ->
      exists widths, col_widths (List.length header_data) = ret widths
                     /\ List.length widths = List.length header_data.
Proof.
  intros E. unfold parse_markdown in E.
  assert (B : buffer_ok st).
  { eapply foldM_buffer_ok; [| exact E]. split; [reflexivity | constructor]. }
  split; [exact B |]. intros h b D. destruct B as [_ B]. rewrite D in B.
  inversion B as [| ? ? N _]; subst.
  destruct h as [| c1 [| c2 [| c3 h]]]; [contradiction | | |].
  - exists [1 # 1]. split; reflexivity.
  - exists [35 # 100; 65 # 100]. split; reflexivity.
  - eexists. split; [reflexivity |]. apply repeat_length.
Qed.

(** X2: blank lines are skipped: the loop gives the same result, and makes
    the same calls, on the lines that are left when the blank ones are taken
    out; in particular a blank line inside a table does not end the table. *)
Theorem blank_lines_are_skipped (RL : ReportLab) (PY : Python) (base : str)
    (lines : list str) (st : parse_state) :
  foldM (process_line base) lines st
  = foldM (process_line base) (filter (fun raw => negb (is_blank raw)) lines) st.
Proof.
  revert st. induction lines as [| raw lines IH]; intros st; [reflexivity |].
  cbn [filter foldM]. unfold is_blank at 1. destruct (Str.eqb (strip raw) []) eqn:B; cbn [negb].
  - apply str_eqb_eq in B. rewrite (process_line_blank base st raw B), bind_ret_l. apply IH.
  - cbn [foldM]. apply bind_ext. intros s'. apply IH.
Qed.

Section ReportStages.
Context {RL : ReportLab} {PY : Python}.

Lemma report_header_inr base name location language h l :
  report_header base name location language = (inr h, l) ->
  h = header_flowables base name location language.
Proof.
  unfold report_header, header_flowables. cbv zeta.
  destruct (is_hindi language); intros E;
    apply bind_inr in E; destruct E as (a & l1 & l2 & A & E & _);
    apply bind_inr in E; destruct E as (b & l3 & l4 & B & E & _);
    apply bind_inr in E; destruct E as (c & l5 & l6 & C & E & _);
    inversion E; subst h;
    unfold Paragraph, called in A, B, C;
    destruct (paragraph_error _) in A; inversion A;
    destruct (paragraph_error _) in B; inversion B;
    destruct (paragraph_error _) in C; inversion C; reflexivity.
Qed.

(** The stages of a primary path that built its flowables. *)
Lemma report_flowables_inr md name location language doc fs log :
  report_flowables md name location language = (inr (doc, fs), log) ->
  exists s base st l1 l2 l3,
    md = JStr s /\ doc = ReportTemplate
    /\ select_base_font language = (inr base, l1)
    /\ parse_markdown base (header_flowables base name location language) s = (inr st, l2)
    /\ add_final_disclaimer base language (flowables st) = (inr fs, l3).
Proof.
  unfold report_flowables. intros E.
  apply bind_inr in E. destruct E as (s & la & lb & Rq & E & _).
  apply bind_inr in E. destruct E as (d & lc & ld & D & E & _).
  apply bind_inr in E. destruct E as (base & l1 & lf & Bf & E & _).
  apply bind_inr in E. destruct E as (header & lh & lg & Hd & E & _).
  apply bind_inr in E. destruct E as (st & l2 & li & Ps & E & _).
  apply bind_inr in E. destruct E as (fs' & l3 & lj & Fd & E & _).
  inversion E; subst fs' d. inversion D; subst doc.
  apply report_header_inr in Hd. subst header.
  exists s, base, st, l1, l2, l3. repeat split; try assumption.
  unfold require_markdown in Rq. destruct (negb (truthy md)); [discriminate |].
  destruct md; try discriminate.
  destruct (Str.eqb (strip s0) []); [discriminate |]. inversion Rq. reflexivity.
Qed.

Lemma add_final_disclaimer_extends base language fs fs' l :
  add_final_disclaimer base language fs = (inr fs', l) ->
  fs' = fs \/ fs' = fs ++ [Spacer (2 # 10); default_disclaimer base language].
Proof.
  unfold add_final_disclaimer. destruct (existsb mentions_disclaimer fs); cbn [negb].
  - intros E. inversion E. left. reflexivity.
  - intros E. apply bind_inr in E. destruct E as (p & l1 & l2 & P & E & _).
    inversion E; subst fs'. unfold Paragraph, called in P.
    destruct (paragraph_error _); inversion P. right. reflexivity.
Qed.

Lemma select_base_font_inr language base l :
  select_base_font language = (inr base, l) ->
  (base = u "Helvetica" /\ (is_hindi language = false
                            \/ exists e, getFont (u "NotoSansDevanagari") = Some e
                                         /\ exn_class_of e = KeyError))
  \/ (base = u "NotoSansDevanagari" /\ is_hindi language = true
      /\ getFont (u "NotoSansDevanagari") = None).
Proof.
  unfold select_base_font. destruct (is_hindi language).
  - unfold pdfmetrics_getFont, called, try_except_class, bind.
    destruct (getFont (u "NotoSansDevanagari")) as [e |] eqn:G.
    + destruct (exn_class_of e) eqn:C; cbn; intros E; inversion E.
      left. split; [reflexivity |]. right. exists e. split; [reflexivity | exact C].
    + cbn. intros E. inversion E. right. repeat split.
  - intros E. inversion E. left. split; [reflexivity | left; reflexivity].
Qed.

End ReportStages.

(** X4: a report whose flowables are built starts with the header: the
    title, the "prepared for" and the location paragraphs in the report's
    language and a spacer, before anything that comes from the markdown. *)
Theorem report_starts_with_header (RL : ReportLab) (PY : Python)
    (md name location language : json) (doc : template) (fs : list flowable)
    (log : list call) :
  report_flowables md name location language = (inr (doc, fs), log) ->
  doc = ReportTemplate
  /\ exists base rest,
      (base = u "Helvetica" \/ base = u "NotoSansDevanagari")
      /\ fs = header_flowables base name location language ++ rest.
Proof.
  intros E. apply report_flowables_inr in E.
  destruct E as (s & base & st & l1 & l2 & l3 & _ & D & Bf & Ps & Fd).
  split; [exact D |]. unfold parse_markdown in Ps.
  apply foldM_extends in Ps. destruct Ps as (ext & F). cbn [flowables] in F.
  exists base. apply add_final_disclaimer_extends in Fd.
  apply select_base_font_inr in Bf.
  assert (Bc : base = u "Helvetica" \/ base = u "NotoSansDevanagari")
    by (destruct Bf as [(B & _) | (B & _)]; auto).
  destruct Fd as [Fd | Fd]; subst fs; rewrite F.
  - exists ext. split; [exact Bc | reflexivity].
  - exists (ext ++ [Spacer (2 # 10); default_disclaimer base language]).
    split; [exact Bc | rewrite app_assoc; reflexivity].
Qed.

Section TableEnd.
Context {RL : ReportLab} {PY : Python}.
Variable base : str.

(** What closing a table does when nothing is raised. *)
Lemma end_of_table_inr st st' log :
  end_of_table base st = (inr st', log) ->
  (current_table_data st = [] /\ st' = ParseState (flowables st) [] false /\ log = [])
  \/ exists header_data body,
      current_table_data st = header_data :: body
      /\ ((table_error (map (styled_header_cell base) header_data :: body)
                       (table_widths (List.length header_data)) = None
           /\ header_data <> []
           /\ st' = ParseState
                      (flowables st
                       ++ [Table (map (styled_header_cell base) header_data :: body)
                                 (table_widths (List.length header_data));
                           Spacer (1 # 10)]) [] false)
          \/ st' = ParseState
                     (flowables st
                      ++ map FParagraph (map (row_paragraph base) (current_table_data st)))
                     [] false).
Proof.
  unfold end_of_table. destruct (current_table_data st) as [| header body] eqn:D.
  - intros E. inversion E. left. repeat split.
  - intros E. right. exists header, body. split; [reflexivity |].
    apply bind_inr in E. destruct E as (fs & l1 & l2 & E1 & E2 & _).
    inversion E2; subst st'. unfold try_except in E1.
    match type of E1 with (match ?m with _ => _ end) = _ => destruct m as [[e | fs'] l] eqn:Try end.
    + right.
      match type of E1 with (let (_, _) := ?m in _) = _ => destruct m as [r l'] eqn:H end.
      inversion E1; subst r.
      apply bind_inr in H. destruct H as (ps & l3 & l4 & P & Q & _).
      inversion Q; subst fs.
      apply (mapM_paragraph_inr (fun row => join (u " | ") (map text row))
               (fun _ => custom_style base "CustomBody")) in P. destruct P as (P & _).
      subst ps. reflexivity.
    + left. inversion E1; subst fs'.
      apply bind_inr in Try. destruct Try as (w & l3 & l4 & W & Try & _).
      apply bind_inr in Try. destruct Try as (hd & l5 & l6 & Hd & Try & _).
      apply bind_inr in Try. destruct Try as (tb & l7 & l8 & Tb & Try & _).
      inversion Try; subst fs.
      assert (N : header <> []).
      { intros Z. subst header. discriminate W. }
      rewrite (col_widths_ok _ (fun Z => N (proj1 (length_zero_iff_nil header) Z))) in W.
      inversion W; subst w.
      apply (mapM_paragraph_inr (fun cell => u "<b>" ++ text cell ++ u "</b>")
               (fun _ => ParagraphStyle (u "TableHeader") base)) in Hd. destruct Hd as (Hd & _).
      fold (styled_header_cell base) in Hd. subst hd.
      unfold NewTable, called in Tb.
      destruct (table_error _ _) eqn:TE; inversion Tb; subst tb.
      repeat split; assumption.
Qed.

End TableEnd.

(** X5: closing a table that ReportLab accepts: the first buffered row
    becomes the header, each of its cells wrapped in bold around the text of
    the cell, the other rows are kept as they are, the widths are 35% / 65%
    for two columns and equal shares otherwise, a spacer follows, and the
    loop is back in the scanning state with an empty buffer. *)
Theorem accepted_table_is_built (RL : ReportLab) (PY : Python) (base : str)
    (st : parse_state) (header_data : list para) (body : list (list para)) :
  current_table_data st = header_data :: body -> header_data <> [] ->
  Forall (fun cell => paragraph_error (styled_header_cell base cell) = None) header_data ->
  table_error (map (styled_header_cell base) header_data :: body)
              (table_widths (List.length header_data)) = None ->
  fst (end_of_table base st)
  = inr (ParseState
           (flowables st
            ++ [Table (map (styled_header_cell base) header_data :: body)
                      (table_widths (List.length header_data));
                Spacer (1 # 10)]) [] false).
Proof.
  intros D N A T. unfold end_of_table. rewrite D.
  rewrite (col_widths_ok _ (fun Z => N (proj1 (length_zero_iff_nil header_data) Z))).
  rewrite bind_ret_l.
  rewrite (mapM_paragraph_accept (fun cell => u "<b>" ++ text cell ++ u "</b>")
             (fun _ => ParagraphStyle (u "TableHeader") base) header_data A).
  fold (styled_header_cell base).
  unfold NewTable, called, bind, try_except. rewrite T. reflexivity.
Qed.


Section Fonts.
Context {RL : ReportLab} {PY : Python}.
Variable base : str.

Lemma custom_style_uses name p :
  para_style p = custom_style base name -> para_uses base p.
Proof. intros E. exists (u name). exact E. Qed.

Lemma process_line_fonts_ok st raw st' log :
  fonts_ok base st -> process_line base st raw = (inr st', log) -> fonts_ok base st'.
Proof.
  intros [F1 F2] E. destruct (process_line_cases base st raw st' log E)
    as [(_ & S & _) | [(_ & T) | [(_ & _ & _ & T) | (_ & _ & _ & p & S & _ & name & Sty)]]].
  - subst st'. split; assumption.
  - apply table_row_inr in T. destruct T as (Fl & _ & T). split; [rewrite Fl; exact F1 |].
    assert (D : Forall (Forall (para_uses base))
                  (if in_table st then current_table_data st else [])).
    { destruct (in_table st); [exact F2 | constructor]. }
    destruct T as [(_ & C & _) | (_ & _ & C & _)]; rewrite C; [exact D |].
    apply Forall_app. split; [exact D |]. constructor; [| constructor].
    apply Forall_forall. intros q I. apply in_map_iff in I. destruct I as (cell & Q & _).
    subst q. eexists. reflexivity.
  - apply end_of_table_inr in T.
    destruct T as [(_ & S & _) | (h & b & D & [(_ & _ & S) | S])]; subst st';
      (split; [| constructor]); cbn [flowables]; try exact F1.
    + apply Forall_app. split; [exact F1 |]. rewrite D in F2.
      inversion F2 as [| ? ? _ Fb]; subst.
      constructor; [| constructor; [exact I | constructor]].
      cbn [flowable_uses]. constructor; [| exact Fb].
      apply Forall_forall. intros q Iq. apply in_map_iff in Iq. destruct Iq as (cell & Q & _).
      subst q. eexists. reflexivity.
    + apply Forall_app. split; [exact F1 |].
      apply Forall_forall. intros f If. apply in_map_iff in If. destruct If as (q & Q & Iq).
      apply in_map_iff in Iq. destruct Iq as (row & Q' & _). subst f q.
      cbn [flowable_uses]. eexists. reflexivity.
  - subst st'. split; [| exact F2]. cbn [append flowables].
    apply Forall_app. split; [exact F1 |]. constructor; [| constructor].
    cbn [flowable_uses]. eapply custom_style_uses. exact Sty.
Qed.

Lemma foldM_fonts_ok lines st st' log :
  fonts_ok base st -> foldM (process_line base) lines st = (inr st', log) -> fonts_ok base st'.
Proof.
  revert st log. induction lines as [| raw lines IH]; intros st log B; cbn [foldM].
  - intros E. inversion E; subst. exact B.
  - intros E. apply bind_inr in E. destruct E as (s1 & l1 & l2 & E1 & E2 & _).
    eapply IH; [| exact E2]. eapply process_line_fonts_ok; eassumption.
Qed.

End Fonts.

(** X7: one font for the whole report: every paragraph and every table cell
    handed to [doc.build] is in a style made with the base font, which is
    NotoSansDevanagari only when the language is 'hindi' and the font is
    found, and Helvetica in every other case. *)
Theorem report_uses_one_base_font (RL : ReportLab) (PY : Python)
    (md name location language : json) (doc : template) (fs : list flowable)
    (log : list call) :
  report_flowables md name location language = (inr (doc, fs), log) ->
  exists base,
    base = (if is_hindi language
            then match getFont (u "NotoSansDevanagari") with
                 | None => u "NotoSansDevanagari"
                 | Some _ => u "Helvetica"
                 end
            else u "Helvetica")
    /\ Forall (flowable_uses base) fs.
Proof.
  intros E. apply report_flowables_inr in E.
  destruct E as (s & base & st & l1 & l2 & l3 & _ & _ & Bf & Ps & Fd).
  exists base. split.
  - apply select_base_font_inr in Bf.
    destruct Bf as [(B & [H | (e & G & _)]) | (B & H & G)]; subst base.
    + rewrite H. reflexivity.
    + rewrite G. destruct (is_hindi language); reflexivity.
    + rewrite H, G. reflexivity.
  - unfold parse_markdown in Ps.
    assert (F0 : fonts_ok base (ParseState (header_flowables base name location language) [] false)).
    { split; [| constructor]. cbn [flowables]. unfold header_flowables. cbv zeta.
      destruct (is_hindi language);
        repeat (constructor; [cbn [flowable_uses]; try (eexists; reflexivity); exact I |]);
        constructor. }
    destruct (foldM_fonts_ok base _ _ _ _ F0 Ps) as [F _].
    apply add_final_disclaimer_extends in Fd. destruct Fd as [Fd | Fd]; subst fs; [exact F |].
    apply Forall_app. split; [exact F |].
    constructor; [exact I |]. constructor; [| constructor].
    cbn [flowable_uses default_disclaimer]. eexists. reflexivity.
Qed.

(** X8: only a KeyError from the font lookup is forgiven. When the font of a
    Hindi report is not found, a KeyError makes Helvetica the base font and
    the report goes on; any other exception from [pdfmetrics.getFont] ends
    the primary path there, before any paragraph is built. *)
Theorem font_lookup_failure (RL : ReportLab) (PY : Python)
    (s : str) (name location language : json) (e : exn) :
  strip s <> [] -> is_hindi language = true ->
  getFont (u "NotoSansDevanagari") = Some e ->
  (exn_class_of e = KeyError ->
   select_base_font language = (inr (u "Helvetica"), [CallGetFont (u "NotoSansDevanagari")]))
  /\ (exn_class_of e <> KeyError ->
      primary_pdf (JStr s) name location language
      = (inl e, [CallDocTemplate ReportTemplate; CallGetFont (u "NotoSansDevanagari")])).
Proof.
  intros N H G.
  assert (Sf : select_base_font language
               = if exn_class_eqb (exn_class_of e) KeyError
                 then (inr (u "Helvetica"), [CallGetFont (u "NotoSansDevanagari")])
                 else (inl e, [CallGetFont (u "NotoSansDevanagari")])).
  { unfold select_base_font, pdfmetrics_getFont, called, try_except_class, bind.
    rewrite H, G. cbn. destruct (exn_class_eqb (exn_class_of e) KeyError); reflexivity. }
  split.
  - intros K. rewrite Sf, K. reflexivity.
  - intros K. unfold primary_pdf, report_flowables, require_markdown.
    assert (Ns : s <> []) by (intros Z; subst s; apply N; reflexivity).
    cbn [truthy]. rewrite (eqb_nil_false s Ns), (eqb_nil_false _ N). cbn [negb].
    rewrite bind_ret_l, Sf.
    destruct (exn_class_of e); try contradiction; reflexivity.
Qed.


Section TableFree.
Context {RL : ReportLab} {PY : Python}.
Variable base : str.

Lemma table_free_run lines st st' log :
  in_table st = false ->
  Forall (fun raw => is_table_row (strip raw) = false) lines ->
  foldM (process_line base) lines st = (inr st', log) ->
  exists ps,
    flowables st' = flowables st ++ map FParagraph ps
    /\ List.length ps = List.length (filter (fun raw => negb (is_blank raw)) lines)
    /\ log = map CallParagraph ps
    /\ in_table st' = false /\ current_table_data st' = current_table_data st.
Proof.
  intros I F. revert st st' log I. induction F as [| raw lines T F IH]; intros st st' log I E.
  - cbn [foldM] in E. inversion E; subst. exists []. cbn. rewrite app_nil_r. auto.
  - cbn [foldM] in E. apply bind_inr in E. destruct E as (s1 & l1 & l2 & E1 & E2 & L).
    cbn [filter]. unfold is_blank at 1.
    destruct (process_line_cases base st raw s1 l1 E1)
      as [(B & S & L1) | [(T' & _) | [(_ & _ & I' & _) | (N & _ & _ & p & S & L1 & _)]]];
      try congruence.
    + subst s1 l1. rewrite B. cbn [Str.eqb negb]. destruct (IH st st' l2 I E2) as (ps & A).
      exists ps. rewrite L. exact A.
    + rewrite (eqb_nil_false _ N). cbn [negb]. subst s1 l1.
      destruct (IH (append st p) st' l2 I E2) as (ps & A1 & A2 & A3 & A4 & A5).
      exists (p :: ps). cbn [append flowables current_table_data] in A1, A5.
      rewrite A1, <- app_assoc. cbn [map app List.length]. rewrite A2, L, A3. auto.
Qed.

End TableFree.



(** [split] on a text without the separator, and on fields joined by it. *)
Lemma split_acc_no_sep (sep : char) (cur s : str) :
  ~ In sep s -> split_acc sep cur s = [rev cur ++ s].
Proof.
  revert cur. induction s as [| a s IH]; intros cur N.
  - cbn. rewrite app_nil_r. reflexivity.
  - apply not_in_cons_neq in N. destruct N as [A N].
    cbn [split_acc]. rewrite A, (IH _ N). cbn [rev]. rewrite <- app_assoc. reflexivity.
Qed.

Lemma split_acc_field (sep : char) (cur c rest : str) :
  ~ In sep c ->
  split_acc sep cur (c ++ sep :: rest) = (rev cur ++ c) :: split_acc sep [] rest.
Proof.
  revert cur. induction c as [| a c IH]; intros cur N.
  - cbn. rewrite N.eqb_refl, app_nil_r. reflexivity.
  - apply not_in_cons_neq in N. destruct N as [A N].
    cbn [app split_acc]. rewrite A, (IH _ N). cbn [rev]. rewrite <- app_assoc. reflexivity.
Qed.

Lemma split_join (sep : char) (cells : list str) :
  cells <> [] -> Forall (fun c => ~ In sep c) cells ->
  split sep (join [sep] cells) = cells.
Proof.
  intros N F. unfold split. induction F as [| c cells C F IH]; [contradiction |].
  destruct cells as [| c2 cells].
  - cbn [join]. apply (split_acc_no_sep sep [] c C).
  - change (join [sep] (c :: c2 :: cells)) with (c ++ sep :: join [sep] (c2 :: cells)).
    rewrite (split_acc_field sep [] c _ C). cbn [rev app]. f_equal.
    apply IH. discriminate.
Qed.

(** X12: reading a table line gives back its cells: a line written as the
    cells between pipes, with a pipe at each end, is a table row whose cells
    are the given ones, each stripped. *)
Theorem row_cells_of_joined_cells (cells : list str) :
  cells <> [] -> Forall (fun c => ~ In 124 c) cells ->
  let line := u "|" ++ join (u "|") cells ++ u "|" in
  is_table_row line = true /\ row_cells line = map strip cells.
Proof.
  intros N F line. subst line. change (u "|") with [124]. split.
  - unfold is_table_row, endswith. change (u "|") with [124].
    cbn [app startswith]. rewrite N.eqb_refl. cbn [andb].
    change (124 :: join [124] cells ++ [124]) with ([124] ++ join [124] cells ++ [124]).
    rewrite !rev_app_distr. reflexivity.
  - unfold row_cells, split. f_equal. cbn [app split_acc]. rewrite N.eqb_refl.
    cbn [rev slice_1_m1 tl].
    assert (S : split_acc 124 [] (join [124] cells ++ [124]) = cells ++ [[]]).
    { destruct cells as [| c cs]; [contradiction |]. clear N.
      revert c F. induction cs as [| c2 cs IH]; intros c F;
        inversion F as [| ? ? C F']; subst.
      - exact (split_acc_field 124 [] c [] C).
      - change (join [124] (c :: c2 :: cs) ++ [124])
          with ((c ++ 124 :: join [124] (c2 :: cs)) ++ [124]).
        rewrite <- app_assoc. cbn [app].
        etransitivity; [exact (split_acc_field 124 [] c _ C) |].
        cbn [rev app]. f_equal. apply IH. exact F'. }
    unfold slice_1_m1. cbn [tl]. rewrite S. apply removelast_last.
Qed.

Lemma startswith_app (p a c : str) : startswith p a = true -> startswith p (a ++ c) = true.
Proof.
  revert a. induction p as [| x p IH]; intros a; [reflexivity |].
  destruct a as [| y a]; cbn [startswith app]; [discriminate |].
  intros H. apply andb_true_iff in H. destruct H as [H1 H2].
  rewrite H1, (IH a H2). reflexivity.
Qed.

Lemma contains_app_l (n a c : str) : contains n a = true -> contains n (a ++ c) = true.
Proof.
  induction a as [| y a IH].
  - cbn [contains]. rewrite orb_false_r. intros H. destruct n; [| discriminate H].
    destruct c; reflexivity.
  - cbn [contains app]. intros H. apply orb_true_iff in H. destruct H as [H | H].
    + change (y :: a ++ c) with ((y :: a) ++ c). rewrite (startswith_app n (y :: a) c H).
      reflexivity.
    + rewrite (IH H). apply orb_true_r.
Qed.

Lemma contains_app_r (n a b : str) : contains n b = true -> contains n (a ++ b) = true.
Proof.
  intros H. induction a as [| y a IH]; [exact H |].
  cbn [app contains]. rewrite IH. apply orb_true_r.
Qed.

(** X13: a disclaimer line of the text keeps the default disclaimer out. On a
    ReportLab whose [str] of a paragraph shows the paragraph's text, a report
    with a line that starts with "Disclaimer:" or "अस्वीकरण:", met before any
    table row, ends with what the text gave: nothing is appended. *)
Theorem disclaimer_line_suppresses_default (RL : ReportLab) (PY : Python)
    (s : str) (name location language : json) (pre post : list str) (raw t : str)
    (doc : template) (fs : list flowable) (log : list call) :
  (forall p needle, contains needle (para_markup p) = true ->
                    contains needle (flowable_str (FParagraph p)) = true) ->
  split newline s = pre ++ raw :: post ->
  Forall (fun l => is_table_row (strip l) = false) pre ->
  strip raw = u "Disclaimer:" ++ t \/ strip raw = u "अस्वीकरण:" ++ t ->
  report_flowables (JStr s) name location language = (inr (doc, fs), log) ->
  exists base st l,
    parse_markdown base (header_flowables base name location language) s = (inr st, l)
    /\ fs = flowables st
    /\ In (FParagraph (Para (u "<i>" ++ strip raw ++ u "</i>")
                            (custom_style base "CustomDisclaimer") None)) fs.
Proof.
  intros Hstr Sp Fpre D E. apply report_flowables_inr in E.
  destruct E as (s' & base & st & l1 & l2 & l3 & Js & _ & _ & Ps & Fd).
  inversion Js; subst s'. exists base, st, l2. split; [exact Ps |].
  unfold parse_markdown in Ps. rewrite Sp in Ps.
  rewrite foldM_app in Ps. apply bind_inr in Ps. destruct Ps as (s1 & la & lb & P1 & P2 & _).
  destruct (table_free_run base pre
              (ParseState (header_flowables base name location language) [] false)
              s1 la eq_refl Fpre P1) as (ps & _ & _ & _ & I1 & C1).
  cbn [foldM] in P2. apply bind_inr in P2. destruct P2 as (s2 & lc & ld & P2 & P3 & _).
  destruct s1 as [f1 c1 i1]. cbn [in_table] in I1. subst i1.
  rewrite (process_line_disclaimer base f1 c1 raw t D) in P2.
  apply emits_inr in P2. destruct P2 as (S2 & _ & _). subst s2.
  apply foldM_extends in P3. destruct P3 as (ext & F3). cbn [append flowables] in F3.
  set (d := FParagraph (Para (u "<i>" ++ strip raw ++ u "</i>")
                             (custom_style base "CustomDisclaimer") None)) in *.
  assert (Id : In d (flowables st)).
  { rewrite F3, !in_app_iff. left. right. left. reflexivity. }
  assert (Md : mentions_disclaimer d = true).
  { unfold mentions_disclaimer, d. apply orb_true_iff.
    destruct D as [D | D]; [left | right]; apply Hstr; cbn [para_markup]; rewrite D;
      apply contains_app_r, contains_app_l; reflexivity. }
  assert (Ex : existsb mentions_disclaimer (flowables st) = true).
  { apply existsb_exists. exists d. split; assumption. }
  unfold add_final_disclaimer in Fd. rewrite Ex in Fd. cbn [negb] in Fd.
  inversion Fd; subst fs. split; [reflexivity | exact Id].
Qed.

(* ===================================================================== *)
(** ** The endpoint [/api/generate] *)
(* ===================================================================== *)

(** X14: only a non-empty JSON object reaches the model. *)
Theorem generate_report_needs_an_object (PY : Python) (GM : Gemini) (data : json) :
  (forall kv m, data <> JObject (kv :: m)) ->
  generate_report data
  = (inr (if truthy data
          then GenerateError 500 (exn_str (no_attribute data (u "get")))
          else GenerateError 400 (u "No JSON data received")), []).
Proof.
  intros N. unfold generate_report.
  destruct data as [| b | z | q | s | l | m]; try reflexivity;
    try (destruct (truthy _) eqn:T; cbn [negb]; reflexivity).
  destruct m as [| kv m]; [reflexivity |]. exfalso. eapply N. reflexivity.
Qed.

(** X15: a request with a JSON object makes exactly one call to the model:
    the Hindi model with the Hindi prompt when the language is 'hindi', the
    English ones for any other or no language; and the endpoint answers
    whatever the model does. *)
Theorem generate_report_calls_model_once (PY : Python) (GM : Gemini)
    (kv : str * json) (m : list (str * json)) :
  let data := kv :: m in
  let language := field data "language" (JStr (u "english")) in
  exists r,
    generate_report (JObject data) = (inr r, [(model_for language, prompt_for data)]).
Proof.
  intros data language. unfold generate_report, model_for, prompt_for.
  cbn [truthy negb]. cbv zeta. fold data. fold language.
  unfold model_generate_content, g_bind, g_try.
  destruct (generate_content _ _) as [e | response].
  - eexists. reflexivity.
  - destruct (candidates response) as [| c cs] eqn:C.
    + eexists. reflexivity.
    + unfold first_part_text. rewrite C. destruct (parts c); eexists; reflexivity.
Qed.

(** X16: the endpoint answers with a report exactly when the model returned
    a first candidate with a first part, and the report is the text of that
    part. *)
Theorem generate_report_text (PY : Python) (GM : Gemini) (data : json) (text : str) :
  fst (generate_report data) = inr (ReportText text)
  <-> exists kv m cs ps fb,
        data = JObject (kv :: m)
        /\ generate_content (model_for (field (kv :: m) "language" (JStr (u "english"))))
                            (prompt_for (kv :: m))
           = inr (Generation (Candidate (text :: ps) :: cs) fb).
Proof.
  split.
  - intros E.
    destruct data as [| b | z | q | s | l | m];
      try (unfold generate_report in E; cbn [truthy] in E;
           destruct (negb _) in E; discriminate E).
    destruct m as [| kv m]; [discriminate E |].
    unfold generate_report in E. cbn [truthy negb] in E. cbv zeta in E.
    unfold model_generate_content, g_bind, g_try, first_part_text in E.
    fold (model_for (field (kv :: m) "language" (JStr (u "english")))) in E.
    fold (prompt_for (kv :: m)) in E.
    destruct (generate_content _ _) as [e | [cands fb]] eqn:Gc; [discriminate E |].
    cbn [candidates] in E. destruct cands as [| [ps] cs]; [discriminate E |].
    cbn [parts] in E. destruct ps as [| t ps]; [discriminate E |].
    cbn in E. inversion E; subst t.
    exists kv, m, cs, ps, fb. split; [reflexivity | exact Gc].
  - intros (kv & m & cs & ps & fb & D & Gc). subst data.
    unfold generate_report. cbn [truthy negb]. cbv zeta.
    unfold model_generate_content, g_bind, g_try, first_part_text.
    fold (model_for (field (kv :: m) "language" (JStr (u "english")))).
    fold (prompt_for (kv :: m)). rewrite Gc. reflexivity.
Qed.

(* ===================================================================== *)
(** ** The further properties at concrete inputs *)
(* ===================================================================== *)

Lemma table_buffer_invariant_witness :
  exists st log,
    @parse_markdown lenient_reportlab reference_python helvetica []
      (text_of_lines ["| A | B | C |"; "|---|---|---|"; "| 1 | 2 | 3 |"]) = (inr st, log)
    /\ @buffer_ok lenient_reportlab reference_python st
    /\ forall header_data body,
        current_table_data st = header_data :: body ->
        exists widths, col_widths (List.length header_data) = ret widths
                       /\ List.length widths = List.length header_data.
Proof.
  eexists. eexists. split; [vm_compute; reflexivity |].
  eapply (table_buffer_invariant lenient_reportlab reference_python helvetica []
            (text_of_lines ["| A | B | C |"; "|---|---|---|"; "| 1 | 2 | 3 |"])).
  vm_compute. reflexivity.
Defined.

Lemma report_starts_with_header_witness :
  let name := JStr (u "Asha") in
  let location := JStr (u "Pune") in
  let language := JStr (u "hindi") in
  exists doc fs log,
    @report_flowables lenient_reportlab reference_python
      (JStr (u "Build a warehouse.")) name location language = (inr (doc, fs), log)
    /\ doc = ReportTemplate
    /\ exists base rest,
        (base = u "Helvetica" \/ base = u "NotoSansDevanagari")
        /\ fs = @header_flowables reference_python base name location language ++ rest.
Proof.
  intros name location language.
  eexists. eexists. eexists. split; [vm_compute; reflexivity |].
  eapply (report_starts_with_header lenient_reportlab reference_python
            (JStr (u "Build a warehouse.")) name location language).
  vm_compute. reflexivity.
Defined.

Lemma accepted_table_is_built_witness :
  let st := ParseState [body_paragraph "Costs"]
                       [[body_cell "Item"; body_cell "Cost"]; [body_cell "Fence"; body_cell "low"]]
                       true in
  fst (end_of_table (RL := lenient_reportlab) helvetica st)
  = inr (ParseState
           ([body_paragraph "Costs"]
            ++ [Table (map (@styled_header_cell lenient_reportlab helvetica)
                           [body_cell "Item"; body_cell "Cost"]
                       :: [[body_cell "Fence"; body_cell "low"]])
                      (table_widths 2);
                Spacer (1 # 10)]) [] false).
Proof.
  intros st.
  apply (accepted_table_is_built lenient_reportlab reference_python helvetica st
           [body_cell "Item"; body_cell "Cost"] [[body_cell "Fence"; body_cell "low"]]).
  - reflexivity.
  - discriminate.
  - repeat constructor.
  - reflexivity.
Defined.


Lemma report_uses_one_base_font_witness :
  let name := JStr (u "Asha") in
  let location := JStr (u "Pune") in
  let language := JStr (u "hindi") in
  exists doc fs log,
    @report_flowables lenient_reportlab reference_python
      (JStr (text_of_lines ["# Report"; "| A | B |"; "| 1 | 2 |"; "Done."]))
      name location language = (inr (doc, fs), log)
    /\ exists base,
        base = (if is_hindi language
                then match @getFont lenient_reportlab (u "NotoSansDevanagari") with
                     | None => u "NotoSansDevanagari"
                     | Some _ => u "Helvetica"
                     end
                else u "Helvetica")
        /\ Forall (flowable_uses base) fs.
Proof.
  intros name location language.
  eexists. eexists. eexists. split; [vm_compute; reflexivity |].
  eapply (report_uses_one_base_font lenient_reportlab reference_python
            (JStr (text_of_lines ["# Report"; "| A | B |"; "| 1 | 2 |"; "Done."]))
            name location language).
  vm_compute. reflexivity.
Defined.

Lemma font_lookup_failure_witness :
  @select_base_font failing_reportlab (JStr (u "hindi"))
  = (inr (u "Helvetica"), [CallGetFont (u "NotoSansDevanagari")]).
Proof.
  apply (proj1 (font_lookup_failure failing_reportlab reference_python
                  (u "# Report") (JStr (u "Asha")) (JStr (u "Pune")) (JStr (u "hindi"))
                  (Exn KeyError (u "font"))
                  ltac:(vm_compute; discriminate) eq_refl eq_refl)).
  reflexivity.
Defined.




Lemma row_cells_of_joined_cells_witness :
  let line := u "|" ++ join (u "|") [u " Detail "; u "Breakdown"] ++ u "|" in
  is_table_row line = true /\ row_cells line = map strip [u " Detail "; u "Breakdown"].
Proof.
  apply (row_cells_of_joined_cells [u " Detail "; u "Breakdown"]).
  - discriminate.
  - repeat constructor; vm_compute; intuition discriminate.
Defined.

Lemma disclaimer_line_suppresses_default_witness :
  let s := text_of_lines ["Build a warehouse."; "Disclaimer: not advice"; "Thanks."] in
  let name := JStr (u "Asha") in
  let location := JStr (u "Pune") in
  let language := JStr (u "english") in
  exists doc fs log,
    @report_flowables lenient_reportlab reference_python (JStr s) name location language
    = (inr (doc, fs), log)
    /\ exists base st l,
        @parse_markdown lenient_reportlab reference_python base
          (@header_flowables reference_python base name location language) s = (inr st, l)
        /\ fs = flowables st
        /\ In (FParagraph (Para (u "<i>" ++ strip (u "Disclaimer: not advice") ++ u "</i>")
                                (custom_style base "CustomDisclaimer") None)) fs.
Proof.
  intros s name location language.
  eexists. eexists. eexists. split; [vm_compute; reflexivity |].
  eapply (disclaimer_line_suppresses_default lenient_reportlab reference_python
            s name location language [u "Build a warehouse."] [u "Thanks."]
            (u "Disclaimer: not advice") (u " not advice")).
  - intros p needle H. cbn [flowable_str lenient_reportlab].
    apply contains_app_r, contains_app_l. exact H.
  - vm_compute. reflexivity.
  - repeat constructor.
  - left. vm_compute. reflexivity.
  - vm_compute. reflexivity.
Defined.

Lemma generate_report_needs_an_object_witness :
  @generate_report reference_python answering_gemini (JList [JInt 1])
  = (inr (GenerateError 500 (exn_str (no_attribute (JList [JInt 1]) (u "get")))), []).
Proof.
  apply (generate_report_needs_an_object reference_python answering_gemini (JList [JInt 1])).
  intros kv m. discriminate.
Defined.

Lemma emphasis_no_star_witness :
  emphasis (u "Plain text, <b>kept</b>.") = u "Plain text, <b>kept</b>.".
Proof.
  apply (emphasis_no_star (u "Plain text, <b>kept</b>.")).
  vm_compute. intuition discriminate.
Defined.

Lemma emphasis_bold_and_italic_runs_witness :
  emphasis (u "The " ++ u "**" ++ u "cost" ++ u "**" ++ u " is " ++ u "*" ++ u "low" ++ u "*"
              ++ u ".")
  = u "The " ++ u "<b>" ++ u "cost" ++ u "</b>" ++ u " is " ++ u "<i>" ++ u "low" ++ u "</i>"
      ++ u ".".
Proof.
  apply (emphasis_bold_and_italic_runs (u "The ") (u "cost") (u " is ") (u "low") (u "."));
    vm_compute; intuition discriminate.
Defined.

Lemma non_object_body_is_an_error_witness :
  @download_pdf lenient_reportlab reference_python (JStr (u "text"))
  = (inr (JsonError 500 (u "Failed to generate PDF: "
                           ++ exn_str (no_attribute (JStr (u "text")) (u "get")))), []).
Proof.
  apply (non_object_body_is_an_error lenient_reportlab reference_python (JStr (u "text"))).
  - reflexivity.
  - intros m. discriminate.
Defined.

Lemma empty_body_is_rejected_witness :
  @download_pdf lenient_reportlab reference_python (JObject [])
  = (inr (JsonError 400 (u "No JSON data received")), []).
Proof.
  apply (empty_body_is_rejected lenient_reportlab reference_python (JObject [])).
  reflexivity.
Defined.

